(** * browsermonitor: the WSL bridge, the session connector and the shutdown path

    A shallow embedding of the parts of the monitor that decide how a
    browser is found, reached, selected and released:

    - [src/os/wsl/chrome.mjs]: [scanChromeInstances], [checkChromeRunning],
      [findProjectChrome], [findFreeDebugPort], [startChromeOnWindows],
      [killPuppeteerMonitorChromes];
    - [src/monitor/join-mode.mjs] and [src/monitor/open-mode.mjs]: the page
      filters, the page selection, the tab listing and the tab switch, the
      keyboard, the connection retry loop, the port-proxy remedy and
      [cleanup];
    - the interactive menu: [getChromeInstances],
      [askUserToSelectChromeInstance] and the key [j];
    - the command line: the choice of the mode.

    JavaScript strings are modelled as byte strings, numbers that hold
    ports, process ids and indices as [Z], and every call that leaves the
    process (a shell command, a fetch, a prompt, a puppeteer call) as an
    event of a trace, with the answers of the outside world supplied by an
    explicit environment. *)

From Stdlib Require Import ZArith Lia Ascii DecimalString DecimalPos Sorted.
From stdpp Require Import base strings list gmap.

Local Open Scope Z_scope.

(** ** JavaScript string primitives *)

Module Js.

(** [s.startsWith(p)] *)
Definition startsWith (s p : string) : bool := String.prefix p s.

(** [s.includes(sub)]: some suffix of [s] starts with [sub]. *)
Fixpoint includes (s sub : string) : bool :=
  if startsWith s sub then true
  else match s with
       | EmptyString => false
       | String _ rest => includes rest sub
       end.

Definition isUpper (c : ascii) : bool :=
  let n := nat_of_ascii c in (65 <=? n)%nat && (n <=? 90)%nat.

Definition lowerChar (c : ascii) : ascii :=
  if isUpper c then ascii_of_nat (nat_of_ascii c + 32) else c.

(** [s.toLowerCase()] on the ASCII letters; other bytes are unchanged. *)
Fixpoint toLowerCase (s : string) : string :=
  match s with
  | EmptyString => EmptyString
  | String c rest => String (lowerChar c) (toLowerCase rest)
  end.

Definition isDigit (c : ascii) : bool :=
  let n := nat_of_ascii c in (48 <=? n)%nat && (n <=? 57)%nat.

(** The ASCII members of the regular expression class [\s] (and of the
    white space that [trim] and [parseInt] skip): tab, line feed,
    vertical tab, form feed, carriage return and space. *)
Definition isSpace (c : ascii) : bool :=
  let n := nat_of_ascii c in
  ((9 <=? n)%nat && (n <=? 13)%nat) || (n =? 32)%nat.

Fixpoint takeWhile (f : ascii -> bool) (s : string) : string :=
  match s with
  | EmptyString => EmptyString
  | String c rest => if f c then String c (takeWhile f rest) else EmptyString
  end.

Fixpoint dropWhile (f : ascii -> bool) (s : string) : string :=
  match s with
  | EmptyString => EmptyString
  | String c rest => if f c then dropWhile f rest else s
  end.

Fixpoint forallb (f : ascii -> bool) (s : string) : bool :=
  match s with
  | EmptyString => true
  | String c rest => f c && forallb f rest
  end.

Definition isEmpty (s : string) : bool :=
  match s with EmptyString => true | String _ _ => false end.

(** [s.trim()] is the empty string, which is falsy: every byte of [s] is
    white space. *)
Definition trimIsEmpty (s : string) : bool := forallb isSpace s.

Definition digitValue (c : ascii) : Z := Z.of_nat (nat_of_ascii c) - 48.

Fixpoint digitsValue (acc : Z) (s : string) : Z :=
  match s with
  | EmptyString => acc
  | String c rest => digitsValue (10 * acc + digitValue c) rest
  end.

(** [parseInt(s, 10)]: leading white space is skipped, one sign is
    accepted, the longest run of decimal digits is read and whatever
    follows is ignored; [None] is [NaN]. *)
Definition parseInt (s : string) : option Z :=
  let s1 := dropWhile isSpace s in
  let '(sign, s2) :=
    match s1 with
    | String "-"%char r => (-1, r)
    | String "+"%char r => (1, r)
    | _ => (1, s1)
    end in
  let ds := takeWhile isDigit s2 in
  if isEmpty ds then None else Some (sign * digitsValue 0 ds).

(** [String(n)] and [`${n}`] for a non-negative integer. *)
Definition ofZ (n : Z) : string := NilEmpty.string_of_uint (N.to_uint (Z.to_N n)).

(** [s.split('\n')], read from the left: [cur] holds the bytes of the
    current piece in reverse. *)
Fixpoint splitLinesAux (cur : string) (s : string) : list string :=
  match s with
  | EmptyString => [String.rev cur]
  | String c rest =>
      if Ascii.eqb c "010"%char
      then String.rev cur :: splitLinesAux EmptyString rest
      else splitLinesAux (String c cur) rest
  end.

Definition splitLines (s : string) : list string := splitLinesAux EmptyString s.

(** The one-character string that holds a double quote. *)
Definition dquote : string := String (ascii_of_nat 34) EmptyString.

(** [s.trimStart()], [s.trimEnd()] and [s.trim()] on ASCII white space. *)
Definition trimStart (s : string) : string := dropWhile isSpace s.

Definition trimEnd (s : string) : string :=
  String.rev (dropWhile isSpace (String.rev s)).

Definition trim (s : string) : string := trimEnd (trimStart s).

(** [s.slice(n)] for [0 <= n]. *)
Fixpoint dropN (n : nat) (s : string) : string :=
  match n, s with
  | O, _ => s
  | S n', String _ rest => dropN n' rest
  | S _, EmptyString => EmptyString
  end.



(** A literal of a regular expression at the start of [s]; with the flag
    [i] the letters of [s] are compared in lower case ([lit] is written in
    lower case). *)
Definition startsWithLiteral (ignoreCase : bool) (s lit : string) : bool :=
  if ignoreCase then String.prefix lit (toLowerCase s) else String.prefix lit s.

(** [s.match(/lit(group)/)]: the leftmost position of [s] at which the
    literal matches and [group] accepts what follows it; the text of the
    group. [group] returns [None] when it cannot match there. *)
Fixpoint matchAfter (ignoreCase : bool) (lit : string)
    (group : string -> option string) (s : string) : option string :=
  match (if startsWithLiteral ignoreCase s lit
         then group (dropN (String.length lit) s) else None) with
  | Some g => Some g
  | None =>
      match s with
      | EmptyString => None
      | String _ rest => matchAfter ignoreCase lit group rest
      end
  end.

(** The group [(C+)] for a character class [C]: the longest run, which must
    not be empty. *)
Definition oneOrMore (class : ascii -> bool) (s : string) : option string :=
  let run := takeWhile class s in
  if isEmpty run then None else Some run.

(** The group of [q([^q]+)q] for a quote character [q]. *)
Definition quotedBy (q : ascii) (s : string) : option string :=
  match s with
  | String c rest =>
      if Ascii.eqb c q then
        let body := takeWhile (fun x => negb (Ascii.eqb x q)) rest in
        if isEmpty body then None
        else if isEmpty (dropWhile (fun x => negb (Ascii.eqb x q)) rest) then None
        else Some body
      else None
  | EmptyString => None
  end.

End Js.

(** ** [src/os/wsl/chrome.mjs] *)

Module Chrome.

(** An entry of [scanChromeInstances().instances]. *)
Record ChromeInstance := mkInstance {
  port : Z;
  profile : string;
  bindAddress : string
}.

(** *** [findFreeDebugPort] *)

(** The [for (let port = startPort; port < startPort + 100; port++)] loop.
    [fuel] bounds the number of iterations; the loop condition itself ends
    the scan, and [findFreeDebugPort_fuel] shows that 100 is enough. *)
Fixpoint scanPorts (usedPorts : gset Z) (startPort port : Z) (fuel : nat) : Z :=
  match fuel with
  | O => startPort
  | S fuel' =>
      if port <? startPort + 100 then
        if bool_decide (port ∈ usedPorts)
        then scanPorts usedPorts startPort (port + 1) fuel'
        else port
      else startPort
  end.

Definition usedPortsOf (instances : list ChromeInstance) : gset Z :=
  list_to_set (port <$> instances).

Definition findFreeDebugPort (instances : list ChromeInstance) (startPort : Z) : Z :=
  scanPorts (usedPortsOf instances) startPort startPort 100.

(** The default argument [startPort = 9222]. *)
Definition findFreeDebugPortDefault (instances : list ChromeInstance) : Z :=
  findFreeDebugPort instances 9222.

(** *** [findProjectChrome] *)

Inductive MatchType := MatchNone | MatchExact | MatchLegacy | MatchAccessible | MatchFirst.

(** The object [{ found, instance, matchType }]; [instance] is [None] for
    JavaScript's [null]. *)
Record ProjectMatch := mkMatch {
  found : bool;
  instance : option ChromeInstance;
  matchType : MatchType
}.

Section FindProjectChrome.

(** [getProfileIdFromProjectDir(projectDir)] is imported from
    [utils/profile-id.mjs]; the two fields that [findProjectChrome] reads
    from its result are parameters here. *)
Variables (projectName expectedProfileId : string).

(** The first two tests of the loop body: the new format
    [browsermonitor\{projectName}_{hash}] and the old [puppeteer-monitor]
    one. The profile is lower-cased, the expected id is used as it is. *)
Definition isExactMatch (inst : ChromeInstance) : bool :=
  let instProfile := Js.toLowerCase (profile inst) in
  (Js.includes instProfile "browsermonitor" && Js.includes instProfile expectedProfileId)
  || (Js.includes instProfile "puppeteer-monitor" && Js.includes instProfile expectedProfileId).

(** The third test of the loop body: the project name alone. *)
Definition isLegacyMatch (inst : ChromeInstance) : bool :=
  let instProfile := Js.toLowerCase (profile inst) in
  Js.includes instProfile (Js.toLowerCase projectName)
  && (Js.includes instProfile ".puppeteer-profile"
      || Js.includes instProfile "browsermonitor"
      || Js.includes instProfile "puppeteer-monitor").

(** The [for (const inst of instances)] loop; [None] when it falls through. *)
Fixpoint matchByProfile (instances : list ChromeInstance) : option ProjectMatch :=
  match instances with
  | [] => None
  | inst :: rest =>
      let instProfile := Js.toLowerCase (profile inst) in
      if Js.includes instProfile "browsermonitor" && Js.includes instProfile expectedProfileId
      then Some (mkMatch true (Some inst) MatchExact)
      else if Js.includes instProfile "puppeteer-monitor" && Js.includes instProfile expectedProfileId
      then Some (mkMatch true (Some inst) MatchExact)
      else if Js.includes instProfile (Js.toLowerCase projectName)
              && (Js.includes instProfile ".puppeteer-profile"
                  || Js.includes instProfile "browsermonitor"
                  || Js.includes instProfile "puppeteer-monitor")
      then Some (mkMatch true (Some inst) MatchLegacy)
      else matchByProfile rest
  end.

Definition isAccessible (i : ChromeInstance) : bool :=
  bool_decide (bindAddress i = "0.0.0.0").

(** [instances] is a JavaScript array here; a [null] or [undefined]
    argument takes the branch of the empty array. *)
Definition findProjectChrome (instances : list ChromeInstance) : ProjectMatch :=
  match instances with
  | [] => mkMatch false None MatchNone
  | first :: _ =>
      match matchByProfile instances with
      | Some m => m
      | None =>
          match List.find isAccessible instances with
          | Some accessibleInst => mkMatch false (Some accessibleInst) MatchAccessible
          | None => mkMatch false (Some first) MatchFirst
          end
      end
  end.

End FindProjectChrome.

(** *** Commands and calls that leave the process *)

Inductive ProxyType := v4tov4 | v4tov6.

Definition proxyTypeName (t : ProxyType) : string :=
  match t with v4tov4 => "v4tov4" | v4tov6 => "v4tov6" end.

(** The command lines handed to [execSync] and [execFileSync]. *)
Inductive Command :=
| NetshDelete (ty : ProxyType) (listenport : Z)
    (* powershell: netsh interface portproxy delete <ty> listenport=<p> listenaddress=0.0.0.0 *)
| NetshDeleteBoth (listenport : Z)
    (* powershell: the v4tov4 delete; the v4tov6 delete *)
| NetshAdd (ty : ProxyType) (listenport : Z) (connectaddress : string)
    (* powershell: netsh interface portproxy add <ty> listenport=<p> listenaddress=0.0.0.0
       connectport=<p> connectaddress=<a> *)
| NetshExeDelete (listenport : Z)
    (* netsh.exe interface portproxy delete v4tov4 listenport=<p> listenaddress=0.0.0.0 *)
| StartProcess (chromePath : string) (args : list string)
| StartSleep (ms : Z)
| Netstat.

(** *** [startChromeOnWindows] *)

(** The answers of Windows to one launch. A failing [Start-Sleep], delete
    or add is caught by the code and changes at most what is logged, so only
    the answers that change the control flow are part of the environment. *)
Record LaunchEnv := mkLaunchEnv {
  startProcessFails : bool;
  (** the output of [netstat.exe -ano] at poll [i]; [None] when it throws *)
  netstatAt : nat -> option string
}.

(** [netstatOutput.split('\n').filter(l => l.includes(':' + port) && l.includes('LISTEN'))] *)
Definition listeningLines (port : Z) (netstatOutput : string) : list string :=
  filter (λ l, Is_true (Js.includes l (":" +:+ Js.ofZ port) && Js.includes l "LISTEN"))
         (Js.splitLines netstatOutput).

(** The inner [for (const line of lines)] loop with its two [break]s. *)
Fixpoint bindAddressOf (port : Z) (lines : list string) : option string :=
  match lines with
  | [] => None
  | line :: rest =>
      if Js.includes line ("127.0.0.1:" +:+ Js.ofZ port) then Some "127.0.0.1"
      else if Js.includes line ("[::1]:" +:+ Js.ofZ port) then Some "::1"
      else bindAddressOf port rest
  end.

(** The [for (let i = 0; i < 10; i++)] loop from iteration [i] on, with
    [remaining] iterations left: the detected address and the commands run. *)
Fixpoint pollBindAddress (env : LaunchEnv) (port : Z) (i remaining : nat)
  : option string * list Command :=
  match remaining with
  | O => (None, [])
  | S remaining' =>
      let detected :=
        match netstatAt env i with
        | Some netstatOutput => bindAddressOf port (listeningLines port netstatOutput)
        | None => None
        end in
      match detected with
      | Some a => (Some a, [StartSleep 500; Netstat])
      | None =>
          let '(r, cmds) := pollBindAddress env port (S i) remaining' in
          (r, StartSleep 500 :: Netstat :: cmds)
      end
  end.

(** [String.prototype] equality [chromeBindAddress === '::1']. *)
Definition isIPv6 (chromeBindAddress : string) : bool :=
  bool_decide (chromeBindAddress = "::1").

(** [startChromeOnWindows(chromePath, port, profileDir)]: the value returned
    and the commands run, in order. *)
Definition startChromeOnWindows (env : LaunchEnv) (chromePath : string) (port : Z)
    (profileDir : string) : bool * list Command :=
  let args := ["--remote-debugging-port=" +:+ Js.ofZ port;
               "--user-data-dir=" +:+ Js.dquote +:+ profileDir +:+ Js.dquote] in
  if startProcessFails env then
    (false, [NetshDelete v4tov4 port; StartProcess chromePath args])
  else
    let '(detected, polls) := pollBindAddress env port 0 10 in
    let chromeBindAddress := default "127.0.0.1" detected in
    let proxyType := if isIPv6 chromeBindAddress then v4tov6 else v4tov4 in
    let connectAddress := if isIPv6 chromeBindAddress then "::1" else "127.0.0.1" in
    (true,
     [NetshDelete v4tov4 port; StartProcess chromePath args]
       ++ polls
       ++ [NetshDeleteBoth port; NetshAdd proxyType port connectAddress]).

(** *** [killPuppeteerMonitorChromes] *)

(** A row of [Win32_Process]. *)
Record Win32Process := mkProcess {
  ProcessId : Z;
  CommandLine : string
}.

(** A process that the function asks Windows to end. *)
Inductive Kill :=
| StopProcess (pid : Z)          (* Stop-Process -Id <pid> -Force *)
| TaskkillTree (pid : string).   (* taskkill.exe /PID <pid> /T /F *)

(** [$chrome.CommandLine -match 'browsermonitor|puppeteer-monitor']:
    PowerShell's [-match] is the case-insensitive operator ([-cmatch] is the
    case-sensitive one), and the pattern is an alternation of two literals. *)
Definition psMatchesMarker (commandLine : string) : bool :=
  Js.includes (Js.toLowerCase commandLine) "browsermonitor"
  || Js.includes (Js.toLowerCase commandLine) "puppeteer-monitor".

(** The [foreach ($chrome in $chromes)] loop of [psScript], which stops at
    the first match: the processes stopped and the final [$killed]. *)
Fixpoint psScript (chromes : list Win32Process) : list Kill * Z :=
  match chromes with
  | [] => ([], 0)
  | chrome :: rest =>
      if psMatchesMarker (CommandLine chrome)
      then ([StopProcess (ProcessId chrome)], 1)
      else psScript rest
  end.

(** [line.includes('browsermonitor') || line.includes('puppeteer-monitor')] *)
Definition lineHasMarker (line : string) : bool :=
  Js.includes line "browsermonitor" || Js.includes line "puppeteer-monitor".

(** [line.includes('CommandLine') && line.includes('ProcessId')] *)
Definition isHeaderLine (line : string) : bool :=
  Js.includes line "CommandLine" && Js.includes line "ProcessId".

(** Whether [s], from its first byte to its end, is a run of digits and
    then white space only; the run of digits when it is. *)
Definition digitsThenSpace (s : string) : option string :=
  let ds := Js.takeWhile Js.isDigit s in
  if Js.isEmpty ds then None
  else if Js.forallb Js.isSpace (Js.dropWhile Js.isDigit s) then Some ds
  else None.

(** [line.match(/(\d+)\s*$/)]: the leftmost position from which the
    pattern matches, and its first group. *)
Fixpoint pidMatch (line : string) : option string :=
  match digitsThenSpace line with
  | Some ds => Some ds
  | None =>
      match line with
      | EmptyString => None
      | String _ rest => pidMatch rest
      end
  end.

(** [wmicOutput.split('\n').filter(line => line.trim())] *)
Definition wmicLines (wmicOutput : string) : list string :=
  filter (λ line, ¬ Is_true (Js.trimIsEmpty line)) (Js.splitLines wmicOutput).

(** The [for (const line of lines)] loop that fills [puppeteerMonitorPids]. *)
Fixpoint puppeteerMonitorPids (lines : list string) : list string :=
  match lines with
  | [] => []
  | line :: rest =>
      if isHeaderLine line then puppeteerMonitorPids rest
      else if lineHasMarker line then
        match pidMatch line with
        | Some pid => pid :: puppeteerMonitorPids rest
        | None => puppeteerMonitorPids rest
        end
      else puppeteerMonitorPids rest
  end.

(** What Windows answers to one call of the function. *)
Record KillEnv := mkKillEnv {
  (** the [chrome.exe] rows that [Get-WmiObject Win32_Process] returns *)
  chromeProcesses : list Win32Process;
  powershellFails : bool;
  (** the output of [wmic.exe process ... get processid,commandline];
      [None] when [execSync] throws *)
  wmicOutput : option string;
  taskkillFails : bool
}.

(** [killPuppeteerMonitorChromes(usePowerShell)]: the number returned and
    the processes it asked Windows to end. *)
Definition killPuppeteerMonitorChromes (env : KillEnv) (usePowerShell : bool)
  : Z * list Kill :=
  if usePowerShell then
    if powershellFails env then (0, [])
    else
      let '(kills, killed) := psScript (chromeProcesses env) in
      (default 0 (Js.parseInt (Js.ofZ killed)), kills)
  else
    match wmicOutput env with
    | None => (0, [])
    | Some out =>
        match puppeteerMonitorPids (wmicLines out) with
        | [] => (0, [])
        | mainPid :: _ =>
            if taskkillFails env then (0, [TaskkillTree mainPid])
            else (1, [TaskkillTree mainPid])
        end
    end.

(** *** [scanChromeInstances] *)

(** [line.match(/--remote-debugging-port=(\d+)/)], its first group. *)
Definition portMatch (line : string) : option string :=
  Js.matchAfter false "--remote-debugging-port=" (Js.oneOrMore Js.isDigit) line.

Definition isAddressChar (c : ascii) : bool :=
  negb (Js.isSpace c || Ascii.eqb c "'"%char || Ascii.eqb c (ascii_of_nat 34)).

(** The first group of the match of [--remote-debugging-address=] and a
    run of characters that are neither white space nor a quote of either
    kind. *)
Definition addressMatch (line : string) : option string :=
  Js.matchAfter false "--remote-debugging-address=" (Js.oneOrMore isAddressChar) line.

(** The three alternatives after [--user-data-dir=], tried in order: a
    double-quoted path, a single-quoted path, a run without white space. *)
Definition profileGroup (s : string) : option string :=
  match Js.quotedBy (ascii_of_nat 34) s with
  | Some g => Some g
  | None =>
      match Js.quotedBy "'"%char s with
      | Some g => Some g
      | None => Js.oneOrMore (fun c => negb (Js.isSpace c)) s
      end
  end.

(** The match of [--user-data-dir=], letter case ignored, and one of the
    three alternatives, and then
    [profileMatch[1] || profileMatch[2] || profileMatch[3]]. *)
Definition userDataDirMatch (line : string) : option string :=
  Js.matchAfter true "--user-data-dir=" profileGroup line.

(** The [for (const line of lines)] loop: the instances pushed, given the
    ports seen so far. [parseInt] of the digits of [portMatch] is a number;
    the branch for [NaN] is never taken. *)
Fixpoint scanLines (seenPorts : gset Z) (lines : list string) : list ChromeInstance :=
  match lines with
  | [] => []
  | line :: rest =>
      match portMatch line with
      | Some digits =>
          match Js.parseInt digits with
          | Some portNum =>
              if bool_decide (portNum ∈ seenPorts) then scanLines seenPorts rest
              else
                mkInstance portNum
                  (default "default" (userDataDirMatch line))
                  (default "127.0.0.1" (addressMatch line))
                  :: scanLines ({[portNum]} ∪ seenPorts) rest
          | None => scanLines seenPorts rest
          end
      | None => scanLines seenPorts rest
      end
  end.

(** [wmicOutput.split('\n').filter(l => l.includes('--remote-debugging-port'))] *)
Definition debugLines (wmicOutput : string) : list string :=
  filter (λ l, Is_true (Js.includes l "--remote-debugging-port")) (Js.splitLines wmicOutput).

(** What Windows answers to one scan; [None] is a command that throws. *)
Record ScanEnv := mkScanEnv {
  (** the output of [Get-Process chrome ... | Select-Object -First 1] *)
  getProcessOutput : option string;
  (** the output of [wmic process where name='chrome.exe' get commandline /format:list] *)
  wmicCommandLines : option string
}.

(** The object [{ instances, chromeRunning }]. *)
Record ScanResult := mkScan {
  instances : list ChromeInstance;
  chromeRunning : bool
}.

Definition scanChromeInstances (env : ScanEnv) : ScanResult :=
  match getProcessOutput env with
  | None => mkScan [] false
  | Some out =>
      if Js.isEmpty (Js.trim out) then mkScan [] false
      else
        match wmicCommandLines env with
        | None => mkScan [] false
        | Some wmic =>
            let wmicOutput := Js.trim wmic in
            if Js.isEmpty wmicOutput then mkScan [] true
            else mkScan (scanLines ∅ (debugLines wmicOutput)) true
        end
  end.

(** *** [checkChromeRunning] *)

(** The object [{ running, withDebugPort, debugPort }]; [debugPort] is
    [None] for [null]. *)
Record ChromeStatus := mkStatus {
  running : bool;
  withDebugPort : bool;
  debugPort : option Z
}.

Definition checkChromeRunning (env : ScanEnv) : ChromeStatus :=
  let scan := scanChromeInstances env in
  if negb (chromeRunning scan) then mkStatus false false None
  else
    match instances scan with
    | [] => mkStatus true false None
    | first :: _ => mkStatus true true (Some (port first))
    end.

End Chrome.

(** ** What the two monitor modes share *)

Module Monitor.

(** A puppeteer page handle: its identity and what [page.url()] returns. *)
Record Page := mkPage {
  pageId : nat;
  url : string
}.

(** A call that leaves the monitor process. The answers come from the
    environment of the function that makes the call. *)
Inductive Call :=
| Timeout (ms : Z)                               (* await new Promise(r => setTimeout(r, ms)) *)
| FetchVersion (versionUrl : string)             (* fetch(`${browserURL}/json/version`) *)
| PuppeteerConnect (browserURL : string)         (* puppeteer.connect({ browserURL, ... }) *)
| RunWslDiagnostics (port : Z) (host : string)
| AskYesNo (question : string)
| AskUserToSelectPage (pages : list Page)
| Exec (command : Chrome.Command)                (* execSync *)
| KillPuppeteerMonitorChromes (usePowerShell : bool)
| HttpServerClose
| BrowserClose
| BrowserDisconnect
| UnlinkPidFile
| ProcessExit (code : Z).

(** The structured result of [runWslDiagnostics]; [actualPort] is [None]
    for [null]. *)
Record DiagResult := mkDiag {
  hasPortProxyConflict : bool;
  actualPort : option Z
}.

(** [diagResult.actualPort || port]: [null] and [0] are both falsy. *)
Definition fixPortOf (diagResult : DiagResult) (port : Z) : Z :=
  match actualPort diagResult with
  | Some p => if p =? 0 then port else p
  | None => port
  end.

Definition fixQuestion : string :=
  "Do you want me to fix this automatically? (remove port proxy, restart Chrome)".

(** The block under [if (diagResult.hasPortProxyConflict)], the same text
    in both modes. [shouldFix] is what the operator answers when asked;
    [fallThrough] is what the caller does when the block does not exit. *)
Definition automaticFix (diagResult : DiagResult) (shouldFix : bool) (port : Z)
    (fallThrough : list Call) : list Call :=
  if hasPortProxyConflict diagResult then
    AskYesNo fixQuestion ::
      (if shouldFix then
         [Exec (Chrome.NetshExeDelete (fixPortOf diagResult port));
          KillPuppeteerMonitorChromes true;
          ProcessExit 0]
       else fallThrough)
  else fallThrough.

(** The signals, keys and timers that end in a call of [cleanup]. *)
Inductive Trigger := SIGINT | SIGTERM | CtrlC | KeyQ | KeyK | HardTimeout | UncaughtException.

(** The arguments [(code, closeBrowser)] each trigger passes; [cleanup(0)]
    and [cleanup(1)] leave [closeBrowser] at its default [false]. *)
Definition cleanupArgs (t : Trigger) : Z * bool :=
  match t with
  | SIGINT => (0, false)
  | SIGTERM => (0, false)
  | CtrlC => (0, false)
  | KeyQ => (0, false)
  | KeyK => (0, true)
  | HardTimeout => (1, false)
  | UncaughtException => (1, false)
  end.

(** *** The keyboard of a running session *)

(** The [key] object of a [keypress] event of readline. *)
Record Keypress := mkKeypress {
  keyName : option string;
  keyCtrl : bool;
  keyShift : bool;
  keyMeta : bool
}.

(** The variables of a mode that its keypress handler reads and writes. *)
Record Ui := mkUi {
  collectingPaused : bool;
  outputCounter : Z;
  isSelectingTab : bool
}.

(** What a keypress makes the session do. *)
Inductive Command :=
| CmdCleanup (code : Z) (closeBrowser : bool)
| CmdDump
| CmdClear
| CmdStatus
| CmdLogPaused (paused : bool)
| CmdSwitchTabs
| CmdPrintHelp
| CmdReadyHelp.

Definition HELP_INTERVAL : Z := 5.

(** [maybeShowHelp()] *)
Definition maybeShowHelp (ui : Ui) : Ui * list Command :=
  let counter := outputCounter ui + 1 in
  (mkUi (collectingPaused ui) counter (isSelectingTab ui),
   if counter mod HELP_INTERVAL =? 0 then [CmdReadyHelp] else []).

Definition isKey (key : Keypress) (name : string) : bool :=
  bool_decide (keyName key = Some name).

End Monitor.

(** ** [src/monitor/join-mode.mjs] *)

Module JoinMode.
Import Monitor.

(** *** The page filters *)

(** [isUserPage] of the main [try] block (connection time). *)
Definition isUserPage (page : Page) : bool :=
  let url := url page in
  if Js.startsWith url "chrome://" then false
  else if Js.startsWith url "chrome-extension://" then false
  else if Js.startsWith url "devtools://" then false
  else if bool_decide (url = "about:blank") then false
  else if Js.includes url "react-devtools" || Js.includes url "redux-devtools" then false
  else if Js.includes url "__react_devtools__" then false
  else if Js.startsWith url "moz-extension://" then false
  else if Js.startsWith url "extension://" then false
  else true.

(** [const pages = userPages.length > 0 ? userPages : allPages] *)
Definition connectionPages (allPages : list Page) : list Page :=
  let userPages := filter (λ pg, Is_true (isUserPage pg)) allPages in
  match userPages with
  | [] => allPages
  | _ :: _ => userPages
  end.

(** [isUserPage] of [switchTabs], [getAllTabs] and [switchToTab]. *)
Definition isUserTab (pg : Page) : bool :=
  let pgUrl := url pg in
  negb (Js.startsWith pgUrl "chrome://")
  && negb (Js.startsWith pgUrl "devtools://")
  && negb (Js.startsWith pgUrl "chrome-extension://").

Definition isBlank (pg : Page) : bool := bool_decide (url pg = "about:blank").

(** The list [pages] that [switchTabs], [getAllTabs] and [switchToTab]
    compute from [allPages]. *)
Definition userTabs (allPages : list Page) : list Page :=
  let pages := filter (λ pg, Is_true (isUserTab pg)) allPages in
  let nonBlankPages := filter (λ pg, ¬ Is_true (isBlank pg)) pages in
  match nonBlankPages with
  | [] => pages
  | _ :: _ => nonBlankPages
  end.

(** [sharedHttpState.getAllTabs]; [browser] is [None] while not connected,
    else what [browser.pages()] returns. *)
Definition getAllTabs (browser : option (list Page)) : list (Z * string) :=
  match browser with
  | None => []
  | Some allPages => imap (λ i pg, (Z.of_nat i + 1, url pg)) (userTabs allPages)
  end.

Inductive SwitchOutcome :=
| NotConnected
| NoUserTabs
| OnlyOneTab
| SwitchCancelled
| NowMonitoring (selectedPage : Page).

(** [switchTabs()]; [ask] is the operator's answer to [askUserToSelectPage]. *)
Definition switchTabs (browser : option (list Page)) (ask : list Page -> option Page)
  : SwitchOutcome * list Call :=
  match browser with
  | None => (NotConnected, [])
  | Some allPages =>
      match userTabs allPages with
      | [] => (NoUserTabs, [])
      | [_] => (OnlyOneTab, [])
      | pages =>
          match ask pages with
          | None => (SwitchCancelled, [AskUserToSelectPage pages])
          | Some selectedPage => (NowMonitoring selectedPage, [AskUserToSelectPage pages])
          end
      end
  end.

(** *** Page selection at connection time *)

(** From [if (pages.length === 0)] to [monitoredPages = [selectedPage]]:
    the page monitored ([None] when there is no tab and [cleanup(1)] runs)
    and the prompts shown. *)
Definition selectPage (ask : list Page -> option Page) (pages : list Page)
  : option Page * list Call :=
  match pages with
  | [] => (None, [])
  | [only] => (Some only, [])
  | first :: _ =>
      match ask pages with
      | Some selectedPage => (Some selectedPage, [AskUserToSelectPage pages])
      | None => (Some first, [AskUserToSelectPage pages])
      end
  end.

(** *** [cleanup] *)

(** The variables of [runJoinMode] that [cleanup] reads; [httpServer] and
    [browser] say whether the variable holds an object. *)
Record Session := mkSession {
  cleanupDone : bool;
  httpServer : bool;
  browser : bool
}.

(** [cleanup(code, closeBrowser)]: the session afterwards and the calls
    made. The flag is set before the first [await], so a call that arrives
    while this one is suspended already sees it. Both [try] blocks swallow
    their exception, which leaves the list of calls as it is. *)
Definition cleanup (st : Session) (code : Z) (closeBrowser : bool) : Session * list Call :=
  if cleanupDone st then (st, [])
  else
    (mkSession true (httpServer st) (browser st),
     (if httpServer st then [HttpServerClose] else [])
       ++ (if browser st then
             if closeBrowser then [BrowserClose] else [BrowserDisconnect]
           else [])
       ++ [ProcessExit code]).

(** The triggers of a run, delivered in order. *)
Fixpoint deliver (st : Session) (triggers : list Trigger) : Session * list Call :=
  match triggers with
  | [] => (st, [])
  | t :: rest =>
      let '(code, closeBrowser) := cleanupArgs t in
      let '(st1, calls1) := cleanup st code closeBrowser in
      let '(st2, calls2) := deliver st1 rest in
      (st2, calls1 ++ calls2)
  end.

(** *** The [catch] block of the connection *)

Record FailureEnv := mkFailureEnv {
  isWSL : bool;
  diagResult : DiagResult;
  (** the operator's answer to [askYesNo], should the question be asked *)
  shouldFix : bool
}.

Definition isConnectivityError (message : string) : bool :=
  Js.includes message "ECONNREFUSED" || Js.includes message "fetch failed"
  || Js.includes message "ETIMEDOUT" || Js.includes message "timeout".

(** The [catch (e)] block of [runJoinMode], for an error with the given
    message: the calls made, ending in the exit of the process. *)
Definition onConnectError (env : FailureEnv) (port : Z) (connectHost : string)
    (message : string) : list Call :=
  if isConnectivityError message then
    if isWSL env then
      RunWslDiagnostics port connectHost
        :: automaticFix (diagResult env) (shouldFix env) port [ProcessExit 1]
    else [ProcessExit 1]
  else [ProcessExit 1].

(** The connection itself: one [puppeteer.connect], no retry. *)
Definition connect (env : FailureEnv) (port : Z) (connectHost : string)
    (finalBrowserURL : string) (connectError : option string) : list Call :=
  match connectError with
  | None => [PuppeteerConnect finalBrowserURL]
  | Some message =>
      PuppeteerConnect finalBrowserURL :: onConnectError env port connectHost message
  end.

(** *** The keypress handler *)

(** The listener that [setupKeyboardInput] installs, run to its end for one
    key: the variables afterwards and the commands carried out, each taken
    to return normally. [switchTabs] raises [isSelectingTab] only while its
    prompt is open and lowers it before it returns. *)
Definition onKeypress (ui : Ui) (key : Keypress) : Ui * list Command :=
  if keyCtrl key && isKey key "c" then (ui, [CmdCleanup 0 false])
  else if isSelectingTab ui then (ui, [])
  else if keyCtrl key || keyShift key || keyMeta key then (ui, [])
  else if isKey key "d" then
    let '(ui', help) := maybeShowHelp ui in (ui', CmdDump :: help)
  else if isKey key "c" then
    let '(ui', help) := maybeShowHelp ui in (ui', CmdClear :: help)
  else if isKey key "q" then (ui, [CmdCleanup 0 false])
  else if isKey key "k" then (ui, [CmdCleanup 0 true])
  else if isKey key "s" then
    let '(ui', help) := maybeShowHelp ui in (ui', CmdStatus :: help)
  else if isKey key "p" then
    let paused := negb (collectingPaused ui) in
    let '(ui', help) :=
      maybeShowHelp (mkUi paused (outputCounter ui) (isSelectingTab ui)) in
    (ui', CmdLogPaused paused :: help)
  else if isKey key "t" then
    let '(ui', help) := maybeShowHelp ui in (ui', CmdSwitchTabs :: help)
  else if isKey key "h" then (ui, [CmdPrintHelp])
  else (ui, []).

(** The keys of a session, handled one after the other. *)
Fixpoint onKeypresses (ui : Ui) (keys : list Keypress) : Ui * list Command :=
  match keys with
  | [] => (ui, [])
  | key :: rest =>
      let '(ui1, cmds1) := onKeypress ui key in
      let '(ui2, cmds2) := onKeypresses ui1 rest in
      (ui2, cmds1 ++ cmds2)
  end.

(** *** [sharedHttpState.switchToTab] *)

Inductive SwitchResult :=
| SwitchError (error : string)
| SwitchSuccess (selectedPage : Page).

(** [switchToTab(index)] for an integer [index], with [browser.pages()] and
    [setupPageMonitoring] taken to return normally: the error, or the page
    that [monitoredPages] holds afterwards. Past the bounds check the index
    is in range, so [pages[index - 1]] is a page. *)
Definition switchToTab (browser : option (list Page)) (index : Z) : SwitchResult :=
  match browser with
  | None => SwitchError "Browser not connected"
  | Some allPages =>
      let pages := userTabs allPages in
      if (index <? 1) || (Z.of_nat (length pages) <? index)
      then SwitchError ("Invalid index. Use 1-" +:+ Js.ofZ (Z.of_nat (length pages)) +:+ ".")
      else
        match pages !! Z.to_nat (index - 1) with
        | Some selectedPage => SwitchSuccess selectedPage
        | None => SwitchError "Cannot read properties of undefined"
        end
  end.

End JoinMode.

(** ** [src/monitor/open-mode.mjs] *)

Module OpenMode.
Import Monitor.

(** *** [cleanup] *)

(** The module-level [cleanupDone], [browser], [launchedOnWindows] and the
    [httpServer] of [runOpenMode]. *)
Record Session := mkSession {
  cleanupDone : bool;
  httpServer : bool;
  browser : bool;
  launchedOnWindows : bool
}.

(** [cleanup(code, closeBrowser)]. [disconnectThrows] says whether
    [browser.disconnect()] throws: on the Windows branch that skips the kill,
    as both stand in one [try]. *)
Definition cleanup (disconnectThrows : bool) (st : Session) (code : Z) (closeBrowser : bool)
  : Session * list Call :=
  if cleanupDone st then (st, [])
  else
    (mkSession true (httpServer st) (browser st) (launchedOnWindows st),
     (if httpServer st then [HttpServerClose] else [])
       ++ (if browser st then
             if closeBrowser then
               if launchedOnWindows st then
                 if disconnectThrows then [BrowserDisconnect]
                 else [BrowserDisconnect; KillPuppeteerMonitorChromes true]
               else [BrowserClose]
             else [BrowserDisconnect]
           else [])
       ++ [UnlinkPidFile; ProcessExit code]).

Fixpoint deliver (disconnectThrows : bool) (st : Session) (triggers : list Trigger)
  : Session * list Call :=
  match triggers with
  | [] => (st, [])
  | t :: rest =>
      let '(code, closeBrowser) := cleanupArgs t in
      let '(st1, calls1) := cleanup disconnectThrows st code closeBrowser in
      let '(st2, calls2) := deliver disconnectThrows st1 rest in
      (st2, calls1 ++ calls2)
  end.

(** *** Launch on Windows and the port proxy *)

(** From [const psCommand = ...] to the end of its [try] block: the same
    polling loop as [startChromeOnWindows], then the two deletes and the
    add. A failing launch logs and exits. *)
Definition launchOnWindows (env : Chrome.LaunchEnv) (chromePath : string)
    (windowsDebugPort : Z) (windowsUserDataDir url : string) : list Call :=
  let args := ["--remote-debugging-port=" +:+ Js.ofZ windowsDebugPort;
               "--user-data-dir=" +:+ windowsUserDataDir;
               "--disable-session-crashed-bubble"; "--start-maximized"; url] in
  if Chrome.startProcessFails env then
    [Exec (Chrome.StartProcess chromePath args); ProcessExit 1]
  else
    let '(detected, polls) := Chrome.pollBindAddress env windowsDebugPort 0 10 in
    let chromeBindAddr := default "127.0.0.1" detected in
    let proxyType := if Chrome.isIPv6 chromeBindAddr then Chrome.v4tov6 else Chrome.v4tov4 in
    Exec (Chrome.StartProcess chromePath args)
      :: (Exec <$> polls)
      ++ [Exec (Chrome.NetshDeleteBoth windowsDebugPort);
          Exec (Chrome.NetshAdd proxyType windowsDebugPort chromeBindAddr)].

(** *** The connection with retry *)

Definition MAX_RETRIES : Z := 5.
Definition RETRY_DELAY : Z := 1500.

(** What the inner [try] around the fetch of [/json/version] does: it
    throws (the fetch fails, or the body of an [ok] response is no JSON), or
    it completes, whatever the status of the response. *)
Inductive ProbeResult := ProbeThrows (message : string) | ProbeCompletes.

Inductive ConnectResult := Connects | ConnectThrows (message : string).

Record ConnectEnv := mkConnectEnv {
  probeAt : Z -> ProbeResult;
  connectAt : Z -> ConnectResult;
  diagResult : DiagResult;
  shouldFix : bool
}.

Definition unreachable (message : string) : string :=
  "Cannot reach Chrome debug endpoint: " +:+ message.

(** The loop [for (let attempt = 1; attempt <= MAX_RETRIES; attempt++)]
    from [attempt] on: the final [lastError] ([None] for [null]) and the
    calls made. [fuel] bounds the iterations; the loop condition ends the
    loop. *)
Fixpoint connectLoop (env : ConnectEnv) (browserURL : string) (attempt : Z)
    (lastError : option string) (fuel : nat) : option string * list Call :=
  match fuel with
  | O => (lastError, [])
  | S fuel' =>
      if attempt <=? MAX_RETRIES then
        match probeAt env attempt with
        | ProbeThrows m =>
            let '(e, calls) :=
              connectLoop env browserURL (attempt + 1) (Some (unreachable m)) fuel' in
            (e, Timeout RETRY_DELAY :: FetchVersion (browserURL +:+ "/json/version") :: calls)
        | ProbeCompletes =>
            match connectAt env attempt with
            | Connects =>
                (None,
                 [Timeout RETRY_DELAY; FetchVersion (browserURL +:+ "/json/version");
                  PuppeteerConnect browserURL])
            | ConnectThrows m =>
                let '(e, calls) :=
                  connectLoop env browserURL (attempt + 1) (Some m) fuel' in
                (e, Timeout RETRY_DELAY :: FetchVersion (browserURL +:+ "/json/version")
                      :: PuppeteerConnect browserURL :: calls)
            end
        end
      else (lastError, [])
  end.

(** The block under [if (lastError)]. *)
Definition onRetriesExhausted (env : ConnectEnv) (windowsDebugPort : Z)
    (connectHost : string) : list Call :=
  RunWslDiagnostics windowsDebugPort connectHost
    :: automaticFix (diagResult env) (shouldFix env) windowsDebugPort [ProcessExit 1].

(** The retry loop and what follows it: whether the monitor is connected,
    and the calls made. *)
Definition connect (env : ConnectEnv) (browserURL : string) (windowsDebugPort : Z)
    (connectHost : string) : bool * list Call :=
  let '(lastError, calls) := connectLoop env browserURL 1 None 5 in
  match lastError with
  | None => (true, calls)
  | Some _ => (false, calls ++ onRetriesExhausted env windowsDebugPort connectHost)
  end.

(** *** The keypress handler *)

(** The listener of [setupKeyboardInput] in open mode; the same keys as in
    join mode, tested in another order. *)
Definition onKeypress (ui : Ui) (key : Keypress) : Ui * list Command :=
  if keyCtrl key && isKey key "c" then (ui, [CmdCleanup 0 false])
  else if isSelectingTab ui then (ui, [])
  else if keyCtrl key || keyShift key || keyMeta key then (ui, [])
  else if isKey key "d" then
    let '(ui', help) := maybeShowHelp ui in (ui', CmdDump :: help)
  else if isKey key "c" then
    let '(ui', help) := maybeShowHelp ui in (ui', CmdClear :: help)
  else if isKey key "q" then (ui, [CmdCleanup 0 false])
  else if isKey key "s" then
    let '(ui', help) := maybeShowHelp ui in (ui', CmdStatus :: help)
  else if isKey key "p" then
    let paused := negb (collectingPaused ui) in
    let '(ui', help) :=
      maybeShowHelp (mkUi paused (outputCounter ui) (isSelectingTab ui)) in
    (ui', CmdLogPaused paused :: help)
  else if isKey key "k" then (ui, [CmdCleanup 0 true])
  else if isKey key "t" then
    let '(ui', help) := maybeShowHelp ui in (ui', CmdSwitchTabs :: help)
  else if isKey key "h" then (ui, [CmdPrintHelp])
  else (ui, []).

Fixpoint onKeypresses (ui : Ui) (keys : list Keypress) : Ui * list Command :=
  match keys with
  | [] => (ui, [])
  | key :: rest =>
      let '(ui1, cmds1) := onKeypress ui key in
      let '(ui2, cmds2) := onKeypresses ui1 rest in
      (ui2, cmds1 ++ cmds2)
  end.

End OpenMode.

(** ** The interactive menu *)

Module InteractiveMode.

(** An entry of the list that [getChromeInstances] builds. *)
Record Item := mkItem {
  port : Z;
  label : string
}.

(** The [key] object of a [keypress] event; [name] is [None] when
    [key.name] is [undefined]. *)
Record Key := mkKey {
  name : option string;
  ctrl : bool;
  meta : bool;
  shift : bool
}.

(** What becomes of the promise: resolved with a port or with [null]
    ([None]); still pending; or [handleKey] threw a [TypeError], which
    leaves the promise unsettled with its listener already removed. *)
Inductive Outcome := Resolved (value : option Z) | Pending | Throws.

(** [key.name || str]: [undefined] ([None]) and the empty string are
    falsy. readline passes [undefined] for [str] when the key came as an
    escape sequence, and leaves [key.name] undefined for a character it has
    no name for. *)
Definition nameOrStr (str : option string) (key : Key) : option string :=
  match name key with
  | Some n => if Js.isEmpty n then str else Some n
  | None => str
  end.

(** [(key.name || str).toLowerCase()]: [None] when the receiver is
    [undefined] and the call throws. *)
Definition keyChar (str : option string) (key : Key) : option string :=
  Js.toLowerCase <$> nameOrStr str key.

(** [handleKey(str, key)] *)
Definition handleKey (items : list Item) (str : option string) (key : option Key)
  : Outcome :=
  match key with
  | None => Pending
  | Some key =>
      match keyChar str key with
      | None => Throws
      | Some char =>
          if bool_decide (char = "q") then Resolved None
          else
            match Js.parseInt char with
            | Some num =>
                if (1 <=? num) && (num <=? Z.of_nat (length items))
                then Resolved (port <$> items !! Z.to_nat (num - 1))
                else Resolved None
            | None => Resolved None
            end
      end
  end.

(** [askUserToSelectChromeInstance(items)] with the next [keypress] event:
    the outcome, and whether the menu and the prompt were printed. *)
Definition askUserToSelectChromeInstance (items : list Item)
    (str : option string) (key : option Key) : Outcome * bool :=
  match items with
  | [] => (Resolved None, false)
  | [item] => (Resolved (Some (port item)), false)
  | _ => (handleKey items str key, true)
  end.

(** *** [getChromeInstances] *)

(** What the machine answers to one collection of instances. Off WSL,
    [versionAt port] is [None] when the fetch of [/json/version] throws, is
    not [ok] or has no JSON body, and else holds [info.Browser] ([None] when
    that field is missing or empty). *)
Record InstancesEnv := mkInstancesEnv {
  isWsl : bool;
  scanEnv : Chrome.ScanEnv;
  versionAt : Z -> option (option string)
}.

(** The loop [for (let port = 9222; port <= 9229; port++)]. *)
Fixpoint probePorts (versionAt : Z -> option (option string)) (port : Z) (fuel : nat)
  : list Item :=
  match fuel with
  | O => []
  | S fuel' =>
      if port <=? 9229 then
        match versionAt port with
        | Some browser =>
            mkItem port
              match browser with
              | Some b => Js.ofZ port +:+ " – " +:+ b
              | None => Js.ofZ port
              end
              :: probePorts versionAt (port + 1) fuel'
        | None => probePorts versionAt (port + 1) fuel'
        end
      else []
  end.

Definition getChromeInstances (env : InstancesEnv) : list Item :=
  if isWsl env then
    (λ i, mkItem (Chrome.port i) (Js.ofZ (Chrome.port i) +:+ " – " +:+ Chrome.profile i))
      <$> Chrome.instances (Chrome.scanChromeInstances (scanEnv env))
  else probePorts (versionAt env) 9222 8.

(** *** The menu and its key [j] *)

Inductive MenuAction :=
| ExitsProcess            (* process.exit(0) *)
| Ignored
| StartsOpenMode
| StartsJoin.

(** The [keypress] listener of the menu up to its first [await]. It is
    installed with [on] before the menu is shown and removed only by the
    branches [o] and [j], the latter after the instance was chosen. *)
Definition menuListener (str : option string) (key : option Key) : MenuAction :=
  let ctrl' := from_option ctrl false key in
  let shift' := from_option shift false key in
  let meta' := from_option meta false key in
  if ctrl' && bool_decide (key ≫= name = Some "c") then ExitsProcess
  else if ctrl' || shift' || meta' then Ignored
  else
    (* (key?.name || str)?.toLowerCase() *)
    let char := from_option (keyChar str) (Js.toLowerCase <$> str) key in
    if bool_decide (char = Some "q") then ExitsProcess
    else if bool_decide (char = Some "o") then StartsOpenMode
    else if bool_decide (char = Some "j") then StartsJoin
    else Ignored.

Definition exitsProcess (action : MenuAction) : bool :=
  match action with ExitsProcess => true | _ => false end.

Inductive MenuJoin :=
| StillWaiting            (* no Chrome found yet, the menu waits for Enter *)
| KeyAwaited              (* the selection prompt stays open *)
| PromptThrew             (* handleKey threw; the selection never resolves *)
| ProcessExited           (* the menu listener ended the process *)
| Cancelled               (* the selection resolved to null *)
| RunsJoinMode (port : Z).

(** The first collection that finds an instance; [scans] are the results of
    the successive calls of [getChromeInstances], one per Enter. *)
Fixpoint firstInstances (scans : list (list Item)) : option (list Item) :=
  match scans with
  | [] => None
  | [] :: later => firstInstances later
  | items :: _ => Some items
  end.

(** The branch [char === 'j'] of the menu, with the [keypress] event that
    arrives while the selection prompt is open. The listeners of an event
    run in the order of their registration: the menu listener first, then
    [handleKey]; [process.exit] in the first leaves the second unrun. *)
Definition joinFromMenu (scans : list (list Item)) (str : option string)
    (key : option Key) : MenuJoin :=
  match firstInstances scans with
  | None => StillWaiting
  | Some items =>
      let '(outcome, prompted) := askUserToSelectChromeInstance items str key in
      if prompted && exitsProcess (menuListener str key)
      then ProcessExited
      else
        match outcome with
        | Pending => KeyAwaited
        | Throws => PromptThrew
        | Resolved None => Cancelled
        | Resolved (Some port) => RunsJoinMode port
        end
  end.

End InteractiveMode.

(** ** The command line *)

Module Cli.







End Cli.

(** ** Vocabulary of the statements *)

(** The layout of the table that [wmic process ... get processid,commandline]
    prints: one row per process, the command line first, then the padding
    of its column, the process id in decimal, and padding to the end. *)
Module Wmic.
Import Chrome.

Definition row (p : Win32Process) (pad trail : string) : string :=
  CommandLine p +:+ String " " pad +:+ Js.ofZ (ProcessId p) +:+ trail.

Definition isRowOf (p : Win32Process) (line : string) : Prop :=
  ∃ pad trail,
    Js.forallb Js.isSpace pad = true ∧ Js.forallb Js.isSpace trail = true
    ∧ line = row p pad trail.

(** Every line of the output that is not blank is the header or the row of
    an enumerated process. *)
Definition lists (procs : list Win32Process) (wmicOutput : string) : Prop :=
  Forall (λ line, isHeaderLine line = true ∨ ∃ p, p ∈ procs ∧ isRowOf p line)
         (wmicLines wmicOutput).

End Wmic.

(** A port that a discovered instance claims. *)
Definition claimed (instances : list Chrome.ChromeInstance) (p : Z) : Prop :=
  ∃ i, i ∈ instances ∧ Chrome.port i = p.

(** The two steps of the automatic remedy: the removal of the forwarding
    rule and the termination of the managed browser. *)
Definition isRemedy (c : Monitor.Call) : bool :=
  match c with
  | Monitor.Exec (Chrome.NetshExeDelete _) => true
  | Monitor.KillPuppeteerMonitorChromes _ => true
  | _ => false
  end.

(** Every remedy step of [calls] comes after the question, and the answer
    was yes. *)
Definition gatedByConfirmation (calls : list Monitor.Call) (answer : bool) : Prop :=
  ∀ pre c post, calls = pre ++ c :: post → isRemedy c = true →
    answer = true ∧ Monitor.AskYesNo Monitor.fixQuestion ∈ pre.

(** The calls of one pass through the body of the retry loop, and the error
    it leaves in [lastError] ([None] when it connects). *)
Definition attemptCalls (env : OpenMode.ConnectEnv) (browserURL : string) (attempt : Z)
  : list Monitor.Call :=
  match OpenMode.probeAt env attempt with
  | OpenMode.ProbeThrows _ =>
      [Monitor.Timeout 1500; Monitor.FetchVersion (browserURL +:+ "/json/version")]
  | OpenMode.ProbeCompletes =>
      [Monitor.Timeout 1500; Monitor.FetchVersion (browserURL +:+ "/json/version");
       Monitor.PuppeteerConnect browserURL]
  end.

Definition attemptError (env : OpenMode.ConnectEnv) (attempt : Z) : option string :=
  match OpenMode.probeAt env attempt with
  | OpenMode.ProbeThrows m => Some ("Cannot reach Chrome debug endpoint: " +:+ m)
  | OpenMode.ProbeCompletes =>
      match OpenMode.connectAt env attempt with
      | OpenMode.Connects => None
      | OpenMode.ConnectThrows m => Some m
      end
  end.

(** [k] polls of the bind address: a sleep of 500 ms and a [netstat] each. *)
Fixpoint polls (k : nat) : list Chrome.Command :=
  match k with
  | O => []
  | S k' => Chrome.StartSleep 500 :: Chrome.Netstat :: polls k'
  end.

(** An instance that one of the three tests of the loop of
    [findProjectChrome] accepts. *)
Definition profileMatch (projectName expectedProfileId : string)
    (inst : Chrome.ChromeInstance) : bool :=
  Chrome.isExactMatch expectedProfileId inst || Chrome.isLegacyMatch projectName inst.

(** A page that Chrome itself, its developer tools or an extension serves,
    by the scheme of its URL. *)
Definition hasInternalScheme (pg : Monitor.Page) : bool :=
  Js.startsWith (Monitor.url pg) "chrome://"
  || Js.startsWith (Monitor.url pg) "devtools://"
  || Js.startsWith (Monitor.url pg) "chrome-extension://".

(** A page of the React or Redux developer tools, by their names in its
    URL, or of an extension of another browser, by the scheme of its URL. *)
Definition hasExtensionMark (pg : Monitor.Page) : bool :=
  Js.includes (Monitor.url pg) "react-devtools"
  || Js.includes (Monitor.url pg) "redux-devtools"
  || Js.includes (Monitor.url pg) "__react_devtools__"
  || Js.startsWith (Monitor.url pg) "moz-extension://"
  || Js.startsWith (Monitor.url pg) "extension://".

(** The page [about:blank]. *)
Definition isBlankPage (pg : Monitor.Page) : bool :=
  bool_decide (Monitor.url pg = "about:blank").

(** The calls of [k] consecutive passes through the body of the retry loop,
    the first of them for attempt [from]. *)
Fixpoint attempts (env : OpenMode.ConnectEnv) (browserURL : string) (from : Z) (k : nat)
  : list Monitor.Call :=
  match k with
  | O => []
  | S k' => attemptCalls env browserURL from ++ attempts env browserURL (from + 1) k'
  end.

(** What poll [i] of the bind address detects: the address of the first
    listening line of [netstat] for the port that names [127.0.0.1] or
    [[::1]], or nothing. *)
Definition detectedAt (env : Chrome.LaunchEnv) (port : Z) (i : nat) : option string :=
  match Chrome.netstatAt env i with
  | Some netstatOutput =>
      Chrome.bindAddressOf port (Chrome.listeningLines port netstatOutput)
  | None => None
  end.

(** The debug port that a command line announces, as the scan reads it. *)
Definition linePort (line : string) : option Z :=
  match Chrome.portMatch line with
  | Some digits => Js.parseInt digits
  | None => None
  end.

(** A key pressed without Ctrl, Shift or Meta. *)
Definition isPlainKey (key : Monitor.Keypress) (name : string) : Prop :=
  Monitor.keyName key = Some name
  ∧ Monitor.keyCtrl key = false ∧ Monitor.keyShift key = false ∧ Monitor.keyMeta key = false.

(** The commands after which [maybeShowHelp] is called. *)
Definition isCounted (cmd : Monitor.Command) : bool :=
  match cmd with
  | Monitor.CmdDump | Monitor.CmdClear | Monitor.CmdStatus
  | Monitor.CmdLogPaused _ | Monitor.CmdSwitchTabs => true
  | _ => false
  end.

Definition isReadyHelp (cmd : Monitor.Command) : bool :=
  match cmd with Monitor.CmdReadyHelp => true | _ => false end.

Definition countCommands (f : Monitor.Command → bool) (cmds : list Monitor.Command) : Z :=
  Z.of_nat (length (List.filter f cmds)).

(** ** Properties *)

Section FindFreeDebugPort.
Import Chrome.

Lemma usedPortsOf_claimed instances p :
  p ∈ usedPortsOf instances ↔ claimed instances p.
Proof.
  unfold usedPortsOf, claimed. rewrite elem_of_list_to_set, list_elem_of_fmap.
  split.
  - intros (i & -> & Hi). by exists i.
  - intros (i & Hi & <-). by exists i.
Qed.

(** What one run of the loop returns, from any position [port] of the scan
    that is [fuel] steps away from the end of the window. *)
Lemma scanPorts_spec used startPort fuel : ∀ port,
  startPort ≤ port →
  port + Z.of_nat fuel = startPort + 100 →
  let r := scanPorts used startPort port fuel in
  (port ≤ r ∧ r < startPort + 100 ∧ (r ∉ used) ∧ (∀ q, port ≤ q < r → q ∈ used))
  ∨ (r = startPort ∧ (∀ q, port ≤ q → q < startPort + 100 → q ∈ used)).
Proof.
  induction fuel as [|fuel IH]; intros port Hle Hsum; simpl.
  - right. split; [done | intros q Hq Hq'; lia].
  - destruct (Z.ltb_spec port (startPort + 100)) as [Hlt | Hge]; [| lia].
    case_bool_decide as Hin.
    + destruct (IH (port + 1)) as [(Hlo & Hhi & Hfree & Hbelow) | (Hr & Hall)];
        [lia | lia | |].
      * left. split_and!; [lia | lia | done |].
        intros q Hq. destruct (decide (q = port)) as [-> | Hne]; [done |].
        apply Hbelow. lia.
      * right. split; [done |].
        intros q Hq Hq'. destruct (decide (q = port)) as [-> | Hne]; [done |].
        apply Hall; lia.
    + left. split_and!; [lia | lia | done |]. intros q Hq. lia.
Qed.

(** More fuel than the 100 iterations of the window changes nothing. *)
Lemma scanPorts_fuel used startPort : ∀ fuel port extra,
  startPort + 100 ≤ port + Z.of_nat fuel →
  scanPorts used startPort port (fuel + extra) = scanPorts used startPort port fuel.
Proof.
  induction fuel as [|fuel IH]; intros port extra Hsum.
  - destruct extra as [|extra]; simpl; [done |].
    destruct (Z.ltb_spec port (startPort + 100)); [lia | done].
  - simpl. destruct (Z.ltb_spec port (startPort + 100)); [| done].
    case_bool_decide; [| done]. apply IH. lia.
Qed.

Lemma findFreeDebugPort_fuel instances startPort extra :
  scanPorts (usedPortsOf instances) startPort startPort (100 + extra)
  = findFreeDebugPort instances startPort.
Proof. unfold findFreeDebugPort. apply scanPorts_fuel. lia. Qed.

(** C8. [findFreeDebugPort] scans the ports from [startPort] upwards and
    returns the first one that no discovered instance claims; when all of
    the 100 ports [startPort .. startPort+99] are claimed it returns
    [startPort] itself. In every case the result lies in
    [startPort, startPort+99]. *)
Theorem findFreeDebugPort_first_free_or_fallback instances startPort :
  let r := findFreeDebugPort instances startPort in
  (startPort ≤ r ≤ startPort + 99)
  ∧ (∀ q, startPort ≤ q < r → claimed instances q)
  ∧ ((∃ q, startPort ≤ q ≤ startPort + 99 ∧ ¬ claimed instances q) →
     ¬ claimed instances r)
  ∧ ((∀ q, startPort ≤ q ≤ startPort + 99 → claimed instances q) →
     r = startPort).
Proof.
  intros r. subst r. unfold findFreeDebugPort.
  destruct (scanPorts_spec (usedPortsOf instances) startPort 100 startPort)
    as [(Hlo & Hhi & Hfree & Hbelow) | (Hr & Hall)]; [lia | lia | |].
  - split_and!; [lia | lia | | |].
    + intros q Hq. apply usedPortsOf_claimed, Hbelow. lia.
    + intros _. by rewrite <- usedPortsOf_claimed.
    + intros Hclaimed. exfalso. apply Hfree, usedPortsOf_claimed, Hclaimed. lia.
  - rewrite Hr. split_and!; [lia | lia | | |].
    + intros q Hq. lia.
    + intros (q & Hq & Hnot). exfalso. apply Hnot, usedPortsOf_claimed, Hall; lia.
    + done.
Qed.

End FindFreeDebugPort.

(** *** JavaScript strings *)

Section JsStrings.

Lemma append_nil s : EmptyString +:+ s = s.
Proof. reflexivity. Qed.

Lemma append_cons c a b : String c a +:+ b = String c (a +:+ b).
Proof. reflexivity. Qed.

Lemma forallb_app f a b :
  Js.forallb f (a +:+ b) = Js.forallb f a && Js.forallb f b.
Proof.
  induction a as [|c a IH]; simpl; [done |].
  rewrite IH. by destruct (f c).
Qed.

Lemma forallb_impl (f g : ascii → bool) s :
  (∀ c, f c = true → g c = true) → Js.forallb f s = true → Js.forallb g s = true.
Proof.
  intros Hfg. induction s as [|c s IH]; simpl; [done |].
  intros [Hc Hs]%andb_prop. rewrite (Hfg c Hc). simpl. by apply IH.
Qed.

(** A needle made of bytes outside a class cannot reach into a tail made
    of bytes of that class. *)
Lemma prefix_app_sep (P : ascii → bool) m : ∀ a b,
  Js.forallb P b = true →
  Js.forallb (λ c, negb (P c)) m = true →
  String.prefix m (a +:+ b) = true → String.prefix m a = true.
Proof.
  induction m as [|c m IH]; intros a b Hb Hm Hpre.
  - by destruct a.
  - simpl in Hm. apply andb_prop in Hm as [Hc Hm].
    destruct a as [|x a]; simpl in *.
    + destruct b as [|y b]; [done |]. simpl in Hb, Hpre.
      apply andb_prop in Hb as [Hy _].
      destruct (ascii_dec c y) as [-> |]; [| done].
      rewrite Hy in Hc. done.
    + destruct (ascii_dec c x); [| done]. by apply (IH a b).
Qed.

Lemma includes_sep_false (P : ascii → bool) c m b :
  Js.forallb P b = true → P c = false → Js.includes b (String c m) = false.
Proof.
  intros Hb Hc. induction b as [|y b IH]; [done |].
  simpl in Hb. apply andb_prop in Hb as [Hy Hb].
  simpl. destruct (ascii_dec c y) as [-> |]; [congruence |].
  by apply IH.
Qed.

Lemma includes_app_sep (P : ascii → bool) m a b :
  m ≠ EmptyString →
  Js.forallb P b = true →
  Js.forallb (λ c, negb (P c)) m = true →
  Js.includes (a +:+ b) m = true → Js.includes a m = true.
Proof.
  intros Hne Hb Hm. induction a as [|x a IH]; intros Hinc.
  - destruct m as [|c m]; [done |]. simpl in Hm.
    apply andb_prop in Hm as [Hc _]. apply negb_true_iff in Hc.
    change (Js.includes b (String c m) = true) in Hinc.
    by rewrite (includes_sep_false P c m b) in Hinc.
  - change (String x a +:+ b) with (String x (a +:+ b)) in Hinc.
    cbn [Js.includes] in Hinc |- *. unfold Js.startsWith in *.
    destruct (String.prefix m (String x (a +:+ b))) eqn:Hpre.
    + change (String x (a +:+ b)) with (String x a +:+ b) in Hpre.
      by rewrite (prefix_app_sep P m (String x a) b).
    + destruct (String.prefix m (String x a)); [done |]. by apply IH.
Qed.

Lemma prefix_toLowerCase m : ∀ s,
  String.prefix m s = true →
  String.prefix (Js.toLowerCase m) (Js.toLowerCase s) = true.
Proof.
  induction m as [|c m IH]; intros s Hpre; [by destruct s |].
  destruct s as [|x s]; [done |]. simpl in *.
  destruct (ascii_dec c x) as [-> |]; [| done].
  destruct (ascii_dec (Js.lowerChar x) (Js.lowerChar x)); [| done].
  by apply IH.
Qed.

(** A substring stays a substring when both strings are lower-cased. *)
Lemma includes_toLowerCase m s :
  Js.includes s m = true →
  Js.includes (Js.toLowerCase s) (Js.toLowerCase m) = true.
Proof.
  induction s as [|x s IH]; cbn [Js.includes Js.toLowerCase]; unfold Js.startsWith.
  - destruct (String.prefix m "") eqn:Hpre; [| done].
    intros _. apply prefix_toLowerCase in Hpre.
    cbn [Js.toLowerCase] in Hpre. by rewrite Hpre.
  - destruct (String.prefix m (String x s)) eqn:Hpre.
    + intros _. apply prefix_toLowerCase in Hpre.
      cbn [Js.toLowerCase] in Hpre. by rewrite Hpre.
    + intros H. rewrite (IH H).
      by destruct (String.prefix (Js.toLowerCase m) _).
Qed.

Lemma string_of_uint_digits u :
  Js.forallb Js.isDigit (NilEmpty.string_of_uint u) = true.
Proof. induction u; simpl; done. Qed.

Lemma string_of_uint_nonempty u :
  u ≠ Decimal.Nil → Js.isEmpty (NilEmpty.string_of_uint u) = false.
Proof. by destruct u. Qed.

Lemma ofZ_digits n : Js.forallb Js.isDigit (Js.ofZ n) = true.
Proof. apply string_of_uint_digits. Qed.

Lemma ofZ_nonempty n : Js.isEmpty (Js.ofZ n) = false.
Proof.
  apply string_of_uint_nonempty. destruct (Z.to_N n) as [|p]; [done |].
  apply DecimalPos.Unsigned.to_uint_nonnil.
Qed.

End JsStrings.

(** *** [killPuppeteerMonitorChromes] *)

Section KillPuppeteerMonitorChromes.
Import Chrome.

Lemma isSpace_not_digit c : Js.isSpace c = true → Js.isDigit c = false.
Proof. destruct c as [[] [] [] [] [] [] [] []]; done. Qed.

Lemma isDigit_not_space c : Js.isDigit c = true → Js.isSpace c = false.
Proof. destruct c as [[] [] [] [] [] [] [] []]; done. Qed.

(** White space followed, somewhere later, by a digit: no such string is a
    run of digits and then white space only. *)
Lemma dropWhile_gap x w y d z :
  Js.isSpace w = true → Js.isDigit d = true →
  Js.forallb Js.isSpace (Js.dropWhile Js.isDigit (x +:+ String w (y +:+ String d z))) = false.
Proof.
  intros Hw Hd.
  assert (Hnot : ∀ u, Js.forallb Js.isSpace (u +:+ String w (y +:+ String d z)) = false).
  { intros u. rewrite forallb_app. cbn [Js.forallb]. rewrite forallb_app. cbn [Js.forallb].
    rewrite (isDigit_not_space d Hd). by rewrite !andb_false_r. }
  induction x as [|c x IH].
  - rewrite append_nil. cbn [Js.dropWhile].
    rewrite (isSpace_not_digit w Hw). apply (Hnot EmptyString).
  - rewrite append_cons. cbn [Js.dropWhile].
    destruct (Js.isDigit c); [apply IH |]. apply (Hnot (String c x)).
Qed.

Lemma digitsThenSpace_gap x w y d z :
  Js.isSpace w = true → Js.isDigit d = true →
  digitsThenSpace (x +:+ String w (y +:+ String d z)) = None.
Proof.
  intros Hw Hd. unfold digitsThenSpace. rewrite dropWhile_gap by done.
  by destruct (Js.isEmpty _).
Qed.

Lemma digits_then_space ds trail :
  Js.forallb Js.isDigit ds = true → Js.forallb Js.isSpace trail = true →
  Js.takeWhile Js.isDigit (ds +:+ trail) = ds
  ∧ Js.dropWhile Js.isDigit (ds +:+ trail) = trail.
Proof.
  intros Hds Htrail. induction ds as [|c ds IH].
  - rewrite append_nil. destruct trail as [|t trail]; [done |]. simpl in Htrail.
    apply andb_prop in Htrail as [Ht _]. simpl. by rewrite (isSpace_not_digit t Ht).
  - simpl in Hds. apply andb_prop in Hds as [Hc Hds].
    rewrite append_cons. cbn [Js.takeWhile Js.dropWhile]. rewrite Hc.
    destruct (IH Hds) as [-> ->]. done.
Qed.

Lemma digitsThenSpace_here ds trail :
  Js.isEmpty ds = false →
  Js.forallb Js.isDigit ds = true → Js.forallb Js.isSpace trail = true →
  digitsThenSpace (ds +:+ trail) = Some ds.
Proof.
  intros Hne Hds Htrail. unfold digitsThenSpace.
  destruct (digits_then_space ds trail Hds Htrail) as [-> ->].
  by rewrite Hne, Htrail.
Qed.

Lemma pidMatch_unfold line :
  pidMatch line =
  match digitsThenSpace line with
  | Some ds => Some ds
  | None => match line with
            | EmptyString => None
            | String _ rest => pidMatch rest
            end
  end.
Proof. by destruct line. Qed.

Lemma pidMatch_padding pad ds trail :
  Js.forallb Js.isSpace pad = true →
  Js.isEmpty ds = false →
  Js.forallb Js.isDigit ds = true → Js.forallb Js.isSpace trail = true →
  pidMatch (pad +:+ ds +:+ trail) = Some ds.
Proof.
  intros Hpad Hne Hds Htrail. induction pad as [|w pad IH].
  - rewrite append_nil, pidMatch_unfold. by rewrite digitsThenSpace_here.
  - simpl in Hpad. apply andb_prop in Hpad as [Hw Hpad].
    rewrite pidMatch_unfold.
    destruct ds as [|d ds]; [done |].
    pose proof Hds as Hds'. simpl in Hds'. apply andb_prop in Hds' as [Hd _].
    change (String w pad +:+ String d ds +:+ trail)
      with (EmptyString +:+ String w (pad +:+ String d (ds +:+ trail))).
    rewrite digitsThenSpace_gap by done.
    change (EmptyString +:+ String w (pad +:+ String d (ds +:+ trail)))
      with (String w (pad +:+ String d ds +:+ trail)).
    by apply IH.
Qed.

(** The pattern [(\d+)\s*$] reads the process id off a row of the table. *)
Lemma pidMatch_row p pad trail :
  Js.forallb Js.isSpace pad = true → Js.forallb Js.isSpace trail = true →
  pidMatch (Wmic.row p pad trail) = Some (Js.ofZ (ProcessId p)).
Proof.
  intros Hpad Htrail. unfold Wmic.row.
  pose proof (ofZ_nonempty (ProcessId p)) as Hne.
  pose proof (ofZ_digits (ProcessId p)) as Hds.
  induction (CommandLine p) as [|c cmd IH].
  - rewrite append_nil. by apply (pidMatch_padding (String " " pad)).
  - rewrite pidMatch_unfold.
    destruct (Js.ofZ (ProcessId p)) as [|d ds] eqn:Hpid; [done |].
    pose proof Hds as Hds'. simpl in Hds'. apply andb_prop in Hds' as [Hd _].
    change (String c cmd +:+ String " " pad +:+ String d ds +:+ trail)
      with (String c cmd +:+ String " " (pad +:+ String d (ds +:+ trail))).
    rewrite digitsThenSpace_gap by done.
    change (String c cmd +:+ String " " (pad +:+ String d (ds +:+ trail)))
      with (String c (cmd +:+ String " " pad +:+ String d ds +:+ trail)).
    by apply IH.
Qed.

(** A marker found in a row of the table lies in the command line. *)
Lemma lineHasMarker_row p pad trail :
  Js.forallb Js.isSpace pad = true → Js.forallb Js.isSpace trail = true →
  lineHasMarker (Wmic.row p pad trail) = true →
  lineHasMarker (CommandLine p) = true.
Proof.
  intros Hpad Htrail. unfold lineHasMarker, Wmic.row.
  set (P := λ c, Js.isDigit c || Js.isSpace c).
  assert (Htail : Js.forallb P (String " " pad +:+ Js.ofZ (ProcessId p) +:+ trail) = true).
  { change (String " " pad +:+ Js.ofZ (ProcessId p) +:+ trail)
      with (String " " (pad +:+ Js.ofZ (ProcessId p) +:+ trail)).
    assert (HS : ∀ s, Js.forallb Js.isSpace s = true → Js.forallb P s = true).
    { intros s. apply forallb_impl. intros c Hc. unfold P. rewrite Hc. apply orb_true_r. }
    assert (HD : ∀ s, Js.forallb Js.isDigit s = true → Js.forallb P s = true).
    { intros s. apply forallb_impl. intros c Hc. unfold P. by rewrite Hc. }
    cbn [Js.forallb]. rewrite !forallb_app.
    by rewrite (HS pad Hpad), (HD _ (ofZ_digits (ProcessId p))), (HS trail Htrail). }
  intros [H | H]%orb_prop; apply orb_true_iff; [left | right].
  - eapply (includes_app_sep P "browsermonitor" (CommandLine p));
      [done | exact Htail | reflexivity | exact H].
  - eapply (includes_app_sep P "puppeteer-monitor" (CommandLine p));
      [done | exact Htail | reflexivity | exact H].
Qed.

(** Exact containment of a marker implies the case-insensitive match. *)
Lemma lineHasMarker_psMatchesMarker commandLine :
  lineHasMarker commandLine = true → psMatchesMarker commandLine = true.
Proof.
  unfold lineHasMarker, psMatchesMarker.
  intros [H | H]%orb_prop; apply includes_toLowerCase in H;
    apply orb_true_iff; [left | right]; exact H.
Qed.

Lemma psScript_selects chromes k :
  k ∈ (psScript chromes).1 →
  ∃ p, p ∈ chromes ∧ k = StopProcess (ProcessId p)
       ∧ psMatchesMarker (CommandLine p) = true.
Proof.
  induction chromes as [|chrome rest IH]; simpl.
  - by intros ?%elem_of_nil.
  - destruct (psMatchesMarker (CommandLine chrome)) eqn:Hm; simpl.
    + intros ->%list_elem_of_singleton. exists chrome. split; [left | done].
    + intros (p & Hp & Hk)%IH. exists p. split; [by right | done].
Qed.

Lemma puppeteerMonitorPids_selects (procs : list Win32Process) (lines : list string)
    (pid : string) :
  Forall (λ line, isHeaderLine line = true ∨ ∃ p, p ∈ procs ∧ Wmic.isRowOf p line) lines →
  pid ∈ puppeteerMonitorPids lines →
  ∃ p, p ∈ procs ∧ pid = Js.ofZ (ProcessId p) ∧ lineHasMarker (CommandLine p) = true.
Proof.
  induction 1 as [|line lines Hline _ IH]; simpl.
  - by intros ?%elem_of_nil.
  - destruct (isHeaderLine line) eqn:Hhead; [done |].
    destruct Hline as [? | (p & Hp & pad & trail & Hpad & Htrail & ->)]; [done |].
    destruct (lineHasMarker (Wmic.row p pad trail)) eqn:Hm; [| done].
    rewrite pidMatch_row by done.
    intros [-> | Hin]%elem_of_cons; [| by apply IH].
    exists p. split_and!; [done | done |]. by apply (lineHasMarker_row p pad trail).
Qed.

(** C1. Whatever processes Windows enumerates, on the PowerShell path and
    on the [wmic] path alike, every process that
    [killPuppeteerMonitorChromes] asks Windows to end is an enumerated
    process whose command line contains the profile marker
    [browsermonitor] or [puppeteer-monitor]; a process without the marker
    is never selected. The marker names a directory of a Windows path and
    is looked for without regard to letter case, as [findProjectChrome]
    does when it lower-cases the profile path first; the [wmic] path is
    stricter and wants the marker as it is spelled. *)
Theorem kill_selects_only_marked (env : KillEnv) (usePowerShell : bool) (k : Kill) :
  (∀ out, wmicOutput env = Some out → Wmic.lists (chromeProcesses env) out) →
  k ∈ (killPuppeteerMonitorChromes env usePowerShell).2 →
  ∃ p, p ∈ chromeProcesses env
    ∧ psMatchesMarker (CommandLine p) = true
    ∧ (if usePowerShell then k = StopProcess (ProcessId p)
       else k = TaskkillTree (Js.ofZ (ProcessId p))
            ∧ lineHasMarker (CommandLine p) = true).
Proof.
  intros Hwmic. unfold killPuppeteerMonitorChromes. destruct usePowerShell.
  - destruct (powershellFails env); [by intros ?%elem_of_nil |].
    destruct (psScript (chromeProcesses env)) as [kills killed] eqn:Hps. simpl.
    intros Hk. destruct (psScript_selects (chromeProcesses env) k) as (p & Hp & -> & Hm).
    { by rewrite Hps. }
    by exists p.
  - destruct (wmicOutput env) as [out|] eqn:Hout; [| by intros ?%elem_of_nil].
    specialize (Hwmic out eq_refl).
    destruct (puppeteerMonitorPids (wmicLines out)) as [|mainPid pids] eqn:Hpids;
      [by intros ?%elem_of_nil |].
    destruct (puppeteerMonitorPids_selects (chromeProcesses env) (wmicLines out) mainPid Hwmic)
      as (p & Hp & -> & Hm).
    { rewrite Hpids. left. }
    intros Hk. exists p. split_and!; [done | by apply lineHasMarker_psMatchesMarker | | done].
    destruct (taskkillFails env); simpl in Hk; by apply list_elem_of_singleton in Hk.
Qed.

(** One personal and one managed Chrome in the table of [wmic]: the process
    asked to end is the managed one. *)
Lemma kill_selects_only_marked_witness :
  let managed := mkProcess 4242 "chrome.exe --remote-debugging-port=9222 --user-data-dir=C:\Users\me\AppData\Local\browsermonitor\shop_1a2b" in
  let personal := mkProcess 977 "chrome.exe --profile-directory=Default" in
  let env := mkKillEnv [personal; managed] false
    (Some "CommandLine                                ProcessId
chrome.exe --profile-directory=Default     977
chrome.exe --remote-debugging-port=9222 --user-data-dir=C:\Users\me\AppData\Local\browsermonitor\shop_1a2b  4242  
") false in
  ∃ p, p ∈ chromeProcesses env
    ∧ psMatchesMarker (CommandLine p) = true
    ∧ TaskkillTree "4242" = TaskkillTree (Js.ofZ (ProcessId p))
    ∧ lineHasMarker (CommandLine p) = true.
Proof.
  intros managed personal env.
  apply (kill_selects_only_marked env false (TaskkillTree "4242")).
  - intros out [= <-]. unfold Wmic.lists.
    set (ls := wmicLines _). vm_compute in ls. subst ls.
    apply List.Forall_cons;
      [| apply List.Forall_cons; [| apply List.Forall_cons; [| apply List.Forall_nil]]].
    + left. reflexivity.
    + right. exists personal. split; [left |].
      exists "    ", "". split_and!; reflexivity.
    + right. exists managed. split; [right; left |].
      exists " ", "  ". split_and!; reflexivity.
  - set (r := killPuppeteerMonitorChromes _ _). vm_compute in r. subst r. left.
Defined.

(** A personal Chrome stands before the managed one in the list of
    PowerShell: the process stopped is the managed one, and the loop ends
    there. *)
Example powershell_stops_the_managed_chrome :
  let personal := mkProcess 977 "chrome.exe --profile-directory=Default" in
  let managed := mkProcess 4242 "chrome.exe --remote-debugging-port=9222 --user-data-dir=C:\Users\me\AppData\Local\browsermonitor\shop_1a2b" in
  let second := mkProcess 4250 "chrome.exe --type=renderer --user-data-dir=C:\Users\me\AppData\Local\browsermonitor\shop_1a2b" in
  killPuppeteerMonitorChromes (mkKillEnv [personal; managed; second] false None false) true
  = (1, [StopProcess 4242])
  ∧ killPuppeteerMonitorChromes (mkKillEnv [personal] false None false) true = (0, []).
Proof. split; reflexivity. Qed.

End KillPuppeteerMonitorChromes.

(** *** [findProjectChrome] *)

Section FindProjectChromeProps.
Import Chrome.
Variables (projectName expectedProfileId : string).

Local Abbreviation hit := (profileMatch projectName expectedProfileId).
Local Abbreviation byProfile := (matchByProfile projectName expectedProfileId).

Lemma matchByProfile_miss inst rest :
  hit inst = false → byProfile (inst :: rest) = byProfile rest.
Proof.
  unfold profileMatch, isExactMatch, isLegacyMatch. cbn [matchByProfile].
  intros [[H1 H2]%orb_false_elim H3]%orb_false_elim.
  by rewrite H1, H2, H3.
Qed.

Lemma matchByProfile_hit inst rest :
  hit inst = true →
  byProfile (inst :: rest)
  = Some (mkMatch true (Some inst)
            (if isExactMatch expectedProfileId inst then MatchExact else MatchLegacy)).
Proof.
  unfold profileMatch, isExactMatch, isLegacyMatch. cbn [matchByProfile].
  destruct (Js.includes _ "browsermonitor" && Js.includes _ expectedProfileId); [done |].
  destruct (Js.includes _ "puppeteer-monitor" && Js.includes _ expectedProfileId); [done |].
  simpl. by intros ->.
Qed.

Lemma matchByProfile_first pre inst post :
  Forall (λ i, hit i = false) pre → hit inst = true →
  byProfile (pre ++ inst :: post)
  = Some (mkMatch true (Some inst)
            (if isExactMatch expectedProfileId inst then MatchExact else MatchLegacy)).
Proof.
  intros Hpre Hinst. induction Hpre as [|i pre Hi _ IH]; cbn [app].
  - by apply matchByProfile_hit.
  - by rewrite matchByProfile_miss.
Qed.

Lemma matchByProfile_none instances :
  Forall (λ i, hit i = false) instances → byProfile instances = None.
Proof.
  induction 1 as [|i l Hi _ IH]; [done |]. by rewrite matchByProfile_miss.
Qed.

Lemma find_isAccessible_first pre inst post :
  Forall (λ i, bindAddress i ≠ "0.0.0.0") pre → bindAddress inst = "0.0.0.0" →
  List.find isAccessible (pre ++ inst :: post) = Some inst.
Proof.
  intros Hpre Hinst. induction Hpre as [|i pre Hi _ IH]; simpl; unfold isAccessible.
  - by rewrite bool_decide_eq_true_2.
  - by rewrite bool_decide_eq_false_2.
Qed.

Lemma find_isAccessible_none instances :
  Forall (λ i, bindAddress i ≠ "0.0.0.0") instances →
  List.find isAccessible instances = None.
Proof.
  induction 1 as [|i l Hi _ IH]; [done |]. simpl. unfold isAccessible.
  by rewrite bool_decide_eq_false_2.
Qed.

(** C2 (amended). [findProjectChrome] returns the first instance, in list
    order, that passes the exact test or the legacy test, and reports
    [exact] when that instance passes the exact test and [legacy] otherwise;
    when no instance passes either test it returns the first instance bound
    to [0.0.0.0] as [accessible]; when there is none it returns the first
    instance as [first]; an empty list gives [none]. *)
Theorem findProjectChrome_tiers (instances : list ChromeInstance) :
  let r := findProjectChrome projectName expectedProfileId instances in
  (instances = [] → r = mkMatch false None MatchNone)
  ∧ (∀ pre inst post,
       instances = pre ++ inst :: post →
       Forall (λ i, profileMatch projectName expectedProfileId i = false) pre →
       profileMatch projectName expectedProfileId inst = true →
       r = mkMatch true (Some inst)
             (if isExactMatch expectedProfileId inst then MatchExact else MatchLegacy))
  ∧ (Forall (λ i, profileMatch projectName expectedProfileId i = false) instances →
     ∀ pre inst post,
       instances = pre ++ inst :: post →
       Forall (λ i, bindAddress i ≠ "0.0.0.0") pre →
       bindAddress inst = "0.0.0.0" →
       r = mkMatch false (Some inst) MatchAccessible)
  ∧ (Forall (λ i, profileMatch projectName expectedProfileId i = false
                  ∧ bindAddress i ≠ "0.0.0.0") instances →
     ∀ first rest, instances = first :: rest →
       r = mkMatch false (Some first) MatchFirst).
Proof.
  intros r. subst r. split_and!.
  - by intros ->.
  - intros pre inst post -> Hpre Hinst. unfold findProjectChrome.
    rewrite (matchByProfile_first pre inst post Hpre Hinst).
    by destruct pre.
  - intros Hnone pre inst post -> Hpre Hinst. unfold findProjectChrome.
    rewrite (matchByProfile_none _ Hnone).
    rewrite (find_isAccessible_first pre inst post Hpre Hinst).
    by destruct pre.
  - intros Hall first rest ->. unfold findProjectChrome.
    rewrite matchByProfile_none, find_isAccessible_none; [done | |].
    + eapply Forall_impl; [exact Hall |]. by intros i [_ ?].
    + eapply Forall_impl; [exact Hall |]. by intros i [? _].
Qed.

End FindProjectChromeProps.

(** C2 as stated fails: an instance that passes only the legacy test and
    stands earlier in the list is returned, with [legacy], although a later
    instance passes the exact test. *)
Lemma findProjectChrome_earlier_legacy_wins :
  let legacy :=
    Chrome.mkInstance 9222 "\\wsl$\Ubuntu\home\me\shop\.puppeteer-profile" "127.0.0.1" in
  let exact :=
    Chrome.mkInstance 9223 "C:\Users\me\AppData\Local\browsermonitor\shop_1a2b3c" "127.0.0.1" in
  Chrome.isExactMatch "shop_1a2b3c" exact = true
  ∧ Chrome.isExactMatch "shop_1a2b3c" legacy = false
  ∧ Chrome.findProjectChrome "shop" "shop_1a2b3c" [legacy; exact]
    = Chrome.mkMatch true (Some legacy) Chrome.MatchLegacy.
Proof. split_and!; reflexivity. Qed.

(** *** The page filters and the page selection of join mode *)

Section Pages.
Import Monitor JoinMode.

Lemma isUserTab_scheme pg : isUserTab pg = negb (hasInternalScheme pg).
Proof.
  unfold isUserTab, hasInternalScheme.
  by destruct (Js.startsWith _ "chrome://"), (Js.startsWith _ "devtools://"),
    (Js.startsWith _ "chrome-extension://").
Qed.

Lemma isUserPage_scheme pg :
  isUserPage pg = true → hasInternalScheme pg = false ∧ isBlank pg = false.
Proof.
  unfold isUserPage, hasInternalScheme, isBlank.
  destruct (Js.startsWith _ "chrome://"); [done |].
  destruct (Js.startsWith _ "chrome-extension://"); [done |].
  destruct (Js.startsWith _ "devtools://"); [done |].
  by destruct (bool_decide _).
Qed.

(** The connection filter keeps a page exactly when its URL has no internal
    scheme, is not the blank page and carries no extension mark. *)
Lemma isUserPage_kept pg :
  isUserPage pg = true
  ↔ hasInternalScheme pg = false ∧ isBlankPage pg = false ∧ hasExtensionMark pg = false.
Proof.
  unfold isUserPage, hasInternalScheme, isBlankPage, hasExtensionMark.
  destruct (Js.startsWith _ "chrome://"); [by split; [| intros (? & ? & ?)] |].
  destruct (Js.startsWith _ "chrome-extension://");
    [split; [done | intros (H & _ & _); by destruct (Js.startsWith _ "devtools://")] |].
  destruct (Js.startsWith _ "devtools://"); [by split; [| intros (? & ? & ?)] |].
  destruct (bool_decide _); [by split; [| intros (? & ? & ?)] |].
  destruct (Js.includes _ "react-devtools"); [by split; [| intros (? & ? & ?)] |].
  destruct (Js.includes _ "redux-devtools"); [by split; [| intros (? & ? & ?)] |].
  destruct (Js.includes _ "__react_devtools__"); [by split; [| intros (? & ? & ?)] |].
  destruct (Js.startsWith _ "moz-extension://"); [by split; [| intros (? & ? & ?)] |].
  by destruct (Js.startsWith _ "extension://"); split; [| intros (? & ? & ?) |..].
Qed.

Lemma elem_of_userPages (allPages : list Page) pg :
  pg ∈ filter (λ pg, Is_true (isUserPage pg)) allPages
  ↔ isUserPage pg = true ∧ pg ∈ allPages.
Proof. by rewrite list_elem_of_filter, Is_true_true. Qed.

Lemma elem_of_userTabs_pages (allPages : list Page) pg :
  pg ∈ filter (λ pg, Is_true (isUserTab pg)) allPages
  ↔ isUserTab pg = true ∧ pg ∈ allPages.
Proof. by rewrite list_elem_of_filter, Is_true_true. Qed.

Lemma elem_of_nonBlank (pages : list Page) pg :
  pg ∈ filter (λ pg, ¬ Is_true (isBlank pg)) pages
  ↔ isBlank pg = false ∧ pg ∈ pages.
Proof. by rewrite list_elem_of_filter, Is_true_false. Qed.

(** C6 (amended). At connection time the filter drops the pages of Chrome,
    of its developer tools and of extensions, and the blank page, and keeps
    every other page in the order of the browser; the unfiltered list is
    used when nothing is left, so a blank page is dropped only when a page
    that is not blank is kept. In switch-tabs and in the
    HTTP tab listing the filter drops the pages with an internal scheme and
    has no fall-back: a page list with internal pages only gives the empty
    list; a blank page is dropped there exactly when some candidate is not
    blank. *)
Theorem page_filters (allPages : list Page) :
  (let userPages := filter (λ pg, Is_true (isUserPage pg)) allPages in
   let pages := connectionPages allPages in
   userPages
   = filter (λ pg, hasInternalScheme pg = false ∧ isBlankPage pg = false
                   ∧ hasExtensionMark pg = false) allPages
   ∧ (∀ pg, pg ∈ userPages →
        pg ∈ allPages ∧ hasInternalScheme pg = false ∧ isBlankPage pg = false
        ∧ hasExtensionMark pg = false)
   ∧ (∀ pg, pg ∈ allPages → hasInternalScheme pg = false → isBlankPage pg = false →
        hasExtensionMark pg = false → pg ∈ userPages)
   ∧ (∀ pg, pg ∈ userPages → hasInternalScheme pg = false)
   ∧ (userPages ≠ [] → pages = userPages)
   ∧ (userPages = [] → pages = allPages)
   ∧ (∀ pg, pg ∈ allPages → isBlank pg = true → pg ∉ pages →
        ∃ q, q ∈ pages ∧ isBlank q = false))
  ∧ (let tabs := userTabs allPages in
     (∀ pg, pg ∈ tabs → pg ∈ allPages ∧ hasInternalScheme pg = false)
     ∧ (∀ pg, pg ∈ allPages → hasInternalScheme pg = false → isBlank pg = false →
          pg ∈ tabs)
     ∧ (∀ pg, pg ∈ allPages → hasInternalScheme pg = false → isBlank pg = true →
          (pg ∉ tabs ↔
           ∃ q, q ∈ allPages ∧ hasInternalScheme q = false ∧ isBlank q = false))
     ∧ (Forall (λ pg, hasInternalScheme pg = true) allPages → tabs = [])
     ∧ getAllTabs (Some allPages) = imap (λ i pg, (Z.of_nat i + 1, url pg)) tabs
     ∧ (∀ ask c, c ∈ (switchTabs (Some allPages) ask).2 → c = AskUserToSelectPage tabs)).
Proof.
  split.
  - intros userPages pages. subst userPages pages. unfold connectionPages.
    split_and!.
    + apply list_filter_iff. intros pg. by rewrite Is_true_true, isUserPage_kept.
    + intros pg [Hpg ?]%elem_of_userPages. by apply isUserPage_kept in Hpg as (? & ? & ?).
    + intros pg Hin ? ? ?. apply elem_of_userPages. split; [| done].
      by apply isUserPage_kept.
    + intros pg [Hpg _]%elem_of_userPages. by apply isUserPage_scheme.
    + by destruct (filter _ allPages).
    + by intros ->.
    + intros pg Hin Hblank.
      destruct (filter _ allPages) as [|q userPages] eqn:Hfilter; [done |].
      intros _. exists q. split; [left |].
      assert (Hq : q ∈ filter (λ pg, Is_true (isUserPage pg)) allPages)
        by (rewrite Hfilter; left).
      apply elem_of_userPages in Hq as [Hq _]. by apply isUserPage_scheme.
  - intros tabs. subst tabs. unfold getAllTabs, switchTabs, userTabs.
    set (pages := filter (λ pg, Is_true (isUserTab pg)) allPages).
    assert (Hpages : ∀ pg, pg ∈ pages ↔ hasInternalScheme pg = false ∧ pg ∈ allPages).
    { intros pg. unfold pages. rewrite elem_of_userTabs_pages, isUserTab_scheme.
      by rewrite negb_true_iff. }
    destruct (filter (λ pg, ¬ Is_true (isBlank pg)) pages) as [|x nonBlank] eqn:Hnb.
    + assert (Hblank : ∀ q, q ∈ pages → isBlank q = true).
      { intros q Hq. destruct (isBlank q) eqn:Hbq; [done |].
        assert (q ∈ filter (λ pg, ¬ Is_true (isBlank pg)) pages) as Hin
          by by apply elem_of_nonBlank.
        rewrite Hnb in Hin. by apply elem_of_nil in Hin. }
      split_and!.
      * intros pg [? ?]%Hpages. done.
      * intros pg Hin Hscheme Hbq. assert (pg ∈ pages) as Hpg by by apply Hpages.
        apply Hblank in Hpg. congruence.
      * intros pg Hin Hscheme Hbq. split.
        -- intros Hnot. exfalso. apply Hnot. by apply Hpages.
        -- intros (q & Hq & Hsq & Hbq') Hpg.
           assert (q ∈ pages) as Hqp by by apply Hpages.
           apply Hblank in Hqp. congruence.
      * intros Hall. destruct pages as [|pg pages']; [done |].
        destruct (Hpages pg) as [Hpg _]. destruct Hpg as [Hs Hin]; [left |].
        rewrite Forall_forall in Hall. specialize (Hall pg Hin). congruence.
      * done.
      * intros ask c.
        destruct pages as [|p1 [|p2 rest]]; simpl; [by intros ?%elem_of_nil.. |].
        destruct (ask _); by intros ->%list_elem_of_singleton.
    + assert (Htabs : ∀ pg, pg ∈ x :: nonBlank ↔ isBlank pg = false ∧ pg ∈ pages).
      { intros pg. rewrite <- Hnb. apply elem_of_nonBlank. }
      assert (Hx : x ∈ x :: nonBlank) by left.
      apply Htabs in Hx as [Hxb Hxp]. apply Hpages in Hxp as [Hxs Hxin].
      split_and!.
      * intros pg [_ [? ?]%Hpages]%Htabs. done.
      * intros pg Hin Hscheme Hbq. apply Htabs. split; [done |]. by apply Hpages.
      * intros pg Hin Hscheme Hbq. split.
        -- intros _. by exists x.
        -- intros _ [Hb _]%Htabs. congruence.
      * intros Hall. rewrite Forall_forall in Hall. specialize (Hall x Hxin). congruence.
      * done.
      * intros ask c.
        destruct nonBlank as [|p2 rest]; simpl; [by intros ?%elem_of_nil |].
        destruct (ask _); by intros ->%list_elem_of_singleton.
Qed.

(** C6 as stated fails in switch-tabs and in the HTTP tab listing: when the
    filter removes every page, the connection falls back to the unfiltered
    list, and these two report no tab at all. *)
Lemma tab_listing_does_not_fall_back :
  let allPages :=
    [mkPage 0 "chrome://newtab/"; mkPage 1 "devtools://devtools/bundled/inspector.html"] in
  filter (λ pg, Is_true (isUserTab pg)) allPages = []
  ∧ connectionPages allPages = allPages
  ∧ userTabs allPages = []
  ∧ getAllTabs (Some allPages) = []
  ∧ switchTabs (Some allPages) (λ _, None) = (NoUserTabs, []).
Proof. split_and!; reflexivity. Qed.

(** C7. With exactly one candidate page the selection takes it without a
    prompt; with two or more it prompts once, takes the operator's pick, and
    takes the first candidate when the prompt resolves to no page. *)
Theorem selectPage_auto_or_prompt (ask : list Page → option Page) (pages : list Page) :
  (∀ only, pages = [only] → selectPage ask pages = (Some only, []))
  ∧ (∀ first second rest, pages = first :: second :: rest →
       selectPage ask pages
       = (Some (default first (ask pages)), [AskUserToSelectPage pages])
       ∧ (ask pages = None →
          selectPage ask pages = (Some first, [AskUserToSelectPage pages]))).
Proof.
  split.
  - by intros only ->.
  - intros first second rest ->. simpl. by destruct (ask _).
Qed.

End Pages.

(** *** [cleanup] *)

Section Cleanup.
Import Monitor.

Lemma join_deliver_done (st : JoinMode.Session) triggers :
  JoinMode.cleanupDone st = true → JoinMode.deliver st triggers = (st, []).
Proof.
  intros Hdone. induction triggers as [|t rest IH]; [done |].
  simpl. destruct (cleanupArgs t) as [code closeBrowser].
  unfold JoinMode.cleanup. rewrite Hdone. by rewrite IH.
Qed.

Lemma open_deliver_done disconnectThrows (st : OpenMode.Session) triggers :
  OpenMode.cleanupDone st = true →
  OpenMode.deliver disconnectThrows st triggers = (st, []).
Proof.
  intros Hdone. induction triggers as [|t rest IH]; [done |].
  simpl. destruct (cleanupArgs t) as [code closeBrowser].
  unfold OpenMode.cleanup. rewrite Hdone. by rewrite IH.
Qed.

(** C9. In both modes [cleanup] does nothing once its flag is set, and sets
    the flag whenever it runs, so of any sequence of signals, quit keys and
    timer expiries only the first has an effect. A first call, in whatever
    state the session is, closes the HTTP server if there is one, then
    closes the browser or disconnects from it as [closeBrowser] says if a
    browser is connected, then exits with the given code; with the server
    and the browser in place these are the three steps in this order. *)
Theorem cleanup_runs_once :
  (∀ (st : JoinMode.Session) code closeBrowser,
     (JoinMode.cleanupDone st = true → JoinMode.cleanup st code closeBrowser = (st, []))
     ∧ JoinMode.cleanupDone (JoinMode.cleanup st code closeBrowser).1 = true
     ∧ (JoinMode.cleanupDone st = false →
        (JoinMode.cleanup st code closeBrowser).2
        = (if JoinMode.httpServer st then [HttpServerClose] else [])
            ++ (if JoinMode.browser st
                then [if closeBrowser then BrowserClose else BrowserDisconnect]
                else [])
            ++ [ProcessExit code])
     ∧ (JoinMode.cleanupDone st = false →
        JoinMode.httpServer st = true → JoinMode.browser st = true →
        (JoinMode.cleanup st code closeBrowser).2
        = [HttpServerClose;
           if closeBrowser then BrowserClose else BrowserDisconnect;
           ProcessExit code])
     ∧ (∀ t later,
          (JoinMode.deliver st (t :: later)).2
          = (JoinMode.cleanup st (cleanupArgs t).1 (cleanupArgs t).2).2))
  ∧ (∀ disconnectThrows (st : OpenMode.Session) code closeBrowser,
       (OpenMode.cleanupDone st = true →
        OpenMode.cleanup disconnectThrows st code closeBrowser = (st, []))
       ∧ OpenMode.cleanupDone (OpenMode.cleanup disconnectThrows st code closeBrowser).1 = true
       ∧ (OpenMode.cleanupDone st = false →
          (OpenMode.cleanup disconnectThrows st code closeBrowser).2
          = (if OpenMode.httpServer st then [HttpServerClose] else [])
              ++ (if OpenMode.browser st then
                    if closeBrowser then
                      if OpenMode.launchedOnWindows st then
                        BrowserDisconnect
                          :: (if disconnectThrows then []
                              else [KillPuppeteerMonitorChromes true])
                      else [BrowserClose]
                    else [BrowserDisconnect]
                  else [])
              ++ [UnlinkPidFile; ProcessExit code])
       ∧ (OpenMode.cleanupDone st = false →
          OpenMode.httpServer st = true → OpenMode.browser st = true →
          (OpenMode.cleanup disconnectThrows st code closeBrowser).2
          = HttpServerClose
              :: (if closeBrowser then
                    if OpenMode.launchedOnWindows st then
                      BrowserDisconnect
                        :: (if disconnectThrows then []
                            else [KillPuppeteerMonitorChromes true])
                    else [BrowserClose]
                  else [BrowserDisconnect])
              ++ [UnlinkPidFile; ProcessExit code])
       ∧ (∀ t later,
            (OpenMode.deliver disconnectThrows st (t :: later)).2
            = (OpenMode.cleanup disconnectThrows st (cleanupArgs t).1 (cleanupArgs t).2).2)).
Proof.
  split.
  - intros st code closeBrowser. split_and!.
    + unfold JoinMode.cleanup. by intros ->.
    + unfold JoinMode.cleanup. by destruct (JoinMode.cleanupDone st) eqn:Hdone.
    + unfold JoinMode.cleanup. intros ->.
      by destruct (JoinMode.httpServer st), (JoinMode.browser st), closeBrowser.
    + unfold JoinMode.cleanup. intros -> -> ->. by destruct closeBrowser.
    + intros t later. cbn [JoinMode.deliver].
      destruct (cleanupArgs t) as [c b]. cbn [fst snd].
      destruct (JoinMode.cleanup st c b) as [st1 calls1] eqn:Hfirst.
      assert (JoinMode.cleanupDone st1 = true) as Hdone.
      { change st1 with (st1, calls1).1. rewrite <- Hfirst.
        unfold JoinMode.cleanup. by destruct (JoinMode.cleanupDone st) eqn:Hd. }
      rewrite (join_deliver_done st1 later Hdone). cbn [snd]. apply app_nil_r.
  - intros disconnectThrows st code closeBrowser. split_and!.
    + unfold OpenMode.cleanup. by intros ->.
    + unfold OpenMode.cleanup. by destruct (OpenMode.cleanupDone st) eqn:Hdone.
    + unfold OpenMode.cleanup. intros ->.
      by destruct (OpenMode.httpServer st), (OpenMode.browser st), closeBrowser,
        (OpenMode.launchedOnWindows st), disconnectThrows.
    + unfold OpenMode.cleanup. intros -> -> ->.
      by destruct closeBrowser, (OpenMode.launchedOnWindows st), disconnectThrows.
    + intros t later. cbn [OpenMode.deliver].
      destruct (cleanupArgs t) as [c b]. cbn [fst snd].
      destruct (OpenMode.cleanup disconnectThrows st c b) as [st1 calls1] eqn:Hfirst.
      assert (OpenMode.cleanupDone st1 = true) as Hdone.
      { change st1 with (st1, calls1).1. rewrite <- Hfirst.
        unfold OpenMode.cleanup. by destruct (OpenMode.cleanupDone st) eqn:Hd. }
      rewrite (open_deliver_done disconnectThrows st1 later Hdone). cbn [snd].
      apply app_nil_r.
Qed.

End Cleanup.

(** *** The automatic remedy for a port-proxy conflict *)

Section AutomaticFix.
Import Monitor.

Lemma gated_app_l (before calls : list Call) answer :
  Forall (λ c, isRemedy c = false) before →
  gatedByConfirmation calls answer → gatedByConfirmation (before ++ calls) answer.
Proof.
  intros Hbefore Hcalls. induction Hbefore as [|x before Hx _ IH]; [done |].
  intros pre c post Heq Hc. destruct pre as [|y pre]; simplify_eq/=.
  - congruence.
  - destruct (IH pre c post) as [? ?]; [done | done |]. split; [done | by right].
Qed.

Lemma gated_nil answer : gatedByConfirmation [] answer.
Proof. intros [|y pre] c post Heq; discriminate Heq. Qed.

Lemma gated_cons (x : Call) calls answer :
  isRemedy x = false →
  gatedByConfirmation calls answer → gatedByConfirmation (x :: calls) answer.
Proof. intros Hx. apply (gated_app_l [x]). by constructor. Qed.

Lemma gated_after_yes calls :
  gatedByConfirmation (AskYesNo fixQuestion :: calls) true.
Proof.
  intros [|y pre] c post Heq Hc; simplify_eq/=.
  split; [done | left].
Qed.

Create HintDb gated.
#[local] Hint Resolve gated_nil gated_cons gated_after_yes : gated.
#[local] Hint Extern 1 (isRemedy _ = false) => reflexivity : gated.

Lemma automaticFix_gated diagResult shouldFix port code :
  gatedByConfirmation (automaticFix diagResult shouldFix port [ProcessExit code]) shouldFix.
Proof.
  unfold automaticFix.
  destruct (hasPortProxyConflict diagResult), shouldFix; auto with gated.
Qed.

Lemma connectLoop_no_remedy env browserURL : ∀ fuel attempt lastError,
  Forall (λ c, isRemedy c = false)
         (OpenMode.connectLoop env browserURL attempt lastError fuel).2.
Proof.
  induction fuel as [|fuel IH]; intros attempt lastError; simpl; [done |].
  destruct (attempt <=? OpenMode.MAX_RETRIES); [| done].
  destruct (OpenMode.probeAt env attempt) as [m|].
  - specialize (IH (attempt + 1) (Some (OpenMode.unreachable m))).
    destruct (OpenMode.connectLoop _ _ _ _ _) as [e calls]. simpl in *.
    by repeat constructor.
  - destruct (OpenMode.connectAt env attempt) as [|m]; simpl.
    + by repeat constructor.
    + specialize (IH (attempt + 1) (Some m)).
      destruct (OpenMode.connectLoop _ _ _ _ _) as [e calls]. simpl in *.
      by repeat constructor.
Qed.

(** C3. In join mode and in open mode alike, the removal of the forwarding
    rule and the termination of the managed browser come only after the
    question of the automatic fix, and only when the operator answered yes:
    a no, or a run in which the question is not asked, leaves both out.
    After a yes to a reported conflict the rule is removed, the managed
    browser is terminated and the process exits with 0. *)
Theorem automatic_fix_waits_for_yes :
  (∀ env port connectHost message,
     gatedByConfirmation (JoinMode.onConnectError env port connectHost message)
                         (JoinMode.shouldFix env))
  ∧ (∀ env browserURL port connectHost,
       gatedByConfirmation (OpenMode.connect env browserURL port connectHost).2
                           (OpenMode.shouldFix env))
  ∧ (∀ env port connectHost message,
       JoinMode.isConnectivityError message = true → JoinMode.isWSL env = true →
       hasPortProxyConflict (JoinMode.diagResult env) = true →
       JoinMode.shouldFix env = true →
       JoinMode.onConnectError env port connectHost message
       = [RunWslDiagnostics port connectHost; AskYesNo fixQuestion;
          Exec (Chrome.NetshExeDelete (fixPortOf (JoinMode.diagResult env) port));
          KillPuppeteerMonitorChromes true; ProcessExit 0])
  ∧ (∀ env browserURL port connectHost,
       (OpenMode.connect env browserURL port connectHost).1 = false →
       hasPortProxyConflict (OpenMode.diagResult env) = true →
       OpenMode.shouldFix env = true →
       (OpenMode.connect env browserURL port connectHost).2
       = (OpenMode.connectLoop env browserURL 1 None 5).2
         ++ [RunWslDiagnostics port connectHost; AskYesNo fixQuestion;
             Exec (Chrome.NetshExeDelete (fixPortOf (OpenMode.diagResult env) port));
             KillPuppeteerMonitorChromes true; ProcessExit 0]).
Proof.
  split_and!.
  - intros env port connectHost message. unfold JoinMode.onConnectError.
    destruct (JoinMode.isConnectivityError message), (JoinMode.isWSL env).
    + apply (gated_app_l [RunWslDiagnostics port connectHost]); [by repeat constructor |].
      apply automaticFix_gated.
    + auto with gated.
    + auto with gated.
    + auto with gated.
  - intros env browserURL port connectHost. unfold OpenMode.connect.
    pose proof (connectLoop_no_remedy env browserURL 5 1 None) as Hloop.
    destruct (OpenMode.connectLoop env browserURL 1 None 5) as [[m|] calls]; simpl in *.
    + apply gated_app_l; [done |]. unfold OpenMode.onRetriesExhausted.
      apply (gated_app_l [RunWslDiagnostics port connectHost]); [by repeat constructor |].
      apply automaticFix_gated.
    + intros pre c post -> Hc. exfalso.
      rewrite Forall_forall in Hloop.
      rewrite (Hloop c) in Hc; [done |]. apply elem_of_app. right. left.
  - intros env port connectHost message Hmsg Hwsl Hconflict Hyes.
    unfold JoinMode.onConnectError, automaticFix. by rewrite Hmsg, Hwsl, Hconflict, Hyes.
  - intros env browserURL port connectHost. unfold OpenMode.connect.
    destruct (OpenMode.connectLoop env browserURL 1 None 5) as [[m|] calls]; simpl; [| done].
    intros _ Hconflict Hyes. unfold OpenMode.onRetriesExhausted, automaticFix.
    by rewrite Hconflict, Hyes.
Qed.

End AutomaticFix.

(** *** The connection with retry *)

Section ConnectWithRetry.
Import Monitor.

Variables (env : OpenMode.ConnectEnv) (browserURL : string).

Lemma connectLoop_failed_attempt attempt lastError fuel m :
  attempt ≤ 5 → attemptError env attempt = Some m →
  OpenMode.connectLoop env browserURL attempt lastError (S fuel)
  = ((OpenMode.connectLoop env browserURL (attempt + 1) (Some m) fuel).1,
     attemptCalls env browserURL attempt
       ++ (OpenMode.connectLoop env browserURL (attempt + 1) (Some m) fuel).2).
Proof.
  intros Hle Herr. cbn [OpenMode.connectLoop]. unfold OpenMode.MAX_RETRIES.
  destruct (Z.leb_spec attempt 5) as [_ | ?]; [| lia].
  unfold attemptError, attemptCalls, OpenMode.unreachable, OpenMode.RETRY_DELAY in *.
  destruct (OpenMode.probeAt env attempt) as [m'|].
  - injection Herr as <-. by destruct (OpenMode.connectLoop _ _ _ _ _).
  - destruct (OpenMode.connectAt env attempt) as [|m']; [done |].
    injection Herr as <-. by destruct (OpenMode.connectLoop _ _ _ _ _).
Qed.

Lemma connectLoop_successful_attempt attempt lastError fuel :
  attempt ≤ 5 → attemptError env attempt = None →
  OpenMode.connectLoop env browserURL attempt lastError (S fuel)
  = (None, attemptCalls env browserURL attempt).
Proof.
  intros Hle Herr. cbn [OpenMode.connectLoop]. unfold OpenMode.MAX_RETRIES.
  destruct (Z.leb_spec attempt 5) as [_ | ?]; [| lia].
  unfold attemptError, attemptCalls, OpenMode.RETRY_DELAY in *.
  destruct (OpenMode.probeAt env attempt) as [m'|]; [done |].
  by destruct (OpenMode.connectAt env attempt).
Qed.

(** When every remaining attempt fails, the loop makes them all and keeps
    the error of the last one. *)
Lemma connectLoop_all_fail : ∀ fuel attempt lastError,
  attempt + Z.of_nat fuel ≤ 6 →
  (∀ j, attempt ≤ j → j < attempt + Z.of_nat fuel → attemptError env j ≠ None) →
  OpenMode.connectLoop env browserURL attempt lastError fuel
  = (match fuel with
     | O => lastError
     | S _ => attemptError env (attempt + Z.of_nat fuel - 1)
     end,
     attempts env browserURL attempt fuel).
Proof.
  induction fuel as [|fuel IH]; intros attempt lastError Hbound Hfail; [done |].
  destruct (attemptError env attempt) as [m|] eqn:Herr; [| by destruct (Hfail attempt); [lia..|]].
  rewrite (connectLoop_failed_attempt attempt lastError fuel m) by (done || lia).
  rewrite IH; [| lia | intros j ? ?; apply Hfail; lia]. cbn [fst snd attempts].
  f_equal. destruct fuel as [|fuel].
  - rewrite <- Herr. f_equal. lia.
  - f_equal. lia.
Qed.

(** When attempt [attempt + k] is the first to succeed, the loop stops
    after it. *)
Lemma connectLoop_first_success : ∀ (k fuel : nat) attempt lastError,
  (k < fuel)%nat → attempt + Z.of_nat k ≤ 5 →
  (∀ j, attempt ≤ j → j < attempt + Z.of_nat k → attemptError env j ≠ None) →
  attemptError env (attempt + Z.of_nat k) = None →
  OpenMode.connectLoop env browserURL attempt lastError fuel
  = (None, attempts env browserURL attempt (S k)).
Proof.
  induction k as [|k IH]; intros fuel attempt lastError Hfuel Hbound Hfail Hok;
    (destruct fuel as [|fuel]; [lia |]).
  - rewrite Z.add_0_r in Hok.
    rewrite connectLoop_successful_attempt by (done || lia).
    cbn [attempts]. by rewrite app_nil_r.
  - destruct (attemptError env attempt) as [m|] eqn:Herr; [| by destruct (Hfail attempt); [lia..|]].
    rewrite (connectLoop_failed_attempt attempt lastError fuel m) by (done || lia).
    rewrite (IH fuel (attempt + 1) (Some m)).
    + done.
    + lia.
    + lia.
    + intros j ? ?. apply Hfail; lia.
    + rewrite <- Hok. f_equal. lia.
Qed.

(** Five iterations are all the loop can make: more fuel changes nothing. *)
Lemma connectLoop_fuel : ∀ fuel attempt lastError extra,
  6 ≤ attempt + Z.of_nat fuel →
  OpenMode.connectLoop env browserURL attempt lastError (fuel + extra)
  = OpenMode.connectLoop env browserURL attempt lastError fuel.
Proof.
  induction fuel as [|fuel IH]; intros attempt lastError extra Hsum.
  - destruct extra as [|extra]; [done |]. simpl. unfold OpenMode.MAX_RETRIES.
    destruct (Z.leb_spec attempt 5); [lia | done].
  - simpl. destruct (attempt <=? OpenMode.MAX_RETRIES); [| done].
    destruct (OpenMode.probeAt env attempt).
    + rewrite IH by lia. done.
    + destruct (OpenMode.connectAt env attempt); [done |]. rewrite IH by lia. done.
Qed.

(** C4. The connection of open mode makes at most five attempts. Each
    attempt waits 1500 ms, then probes [/json/version], and calls
    [puppeteer.connect] only when the probe went through; a probe that throws
    leaves the error [Cannot reach Chrome debug endpoint: ...] for that
    attempt. The loop stops at the first attempt that connects; when all
    five fail it runs [runWslDiagnostics] next. In join mode a connectivity
    error on WSL runs [runWslDiagnostics] as well. *)
Theorem connect_retries_then_diagnoses (port : Z) (connectHost : string) :
  (∀ attempt,
     (∀ m, OpenMode.probeAt env attempt = OpenMode.ProbeThrows m →
        attemptError env attempt = Some ("Cannot reach Chrome debug endpoint: " +:+ m)
        ∧ attemptCalls env browserURL attempt
          = [Timeout 1500; FetchVersion (browserURL +:+ "/json/version")])
     ∧ (OpenMode.probeAt env attempt = OpenMode.ProbeCompletes →
        attemptCalls env browserURL attempt
        = [Timeout 1500; FetchVersion (browserURL +:+ "/json/version");
           PuppeteerConnect browserURL]))
  ∧ (∀ k : nat,
       (1 ≤ k ≤ 5)%nat →
       (∀ j, 1 ≤ j → j < Z.of_nat k → attemptError env j ≠ None) →
       attemptError env (Z.of_nat k) = None →
       OpenMode.connect env browserURL port connectHost
       = (true, attempts env browserURL 1 k))
  ∧ ((∀ j, 1 ≤ j → j ≤ 5 → attemptError env j ≠ None) →
     OpenMode.connectLoop env browserURL 1 None 5
     = (attemptError env 5, attempts env browserURL 1 5)
     ∧ OpenMode.connect env browserURL port connectHost
       = (false,
          attempts env browserURL 1 5
            ++ RunWslDiagnostics port connectHost
            :: automaticFix (OpenMode.diagResult env) (OpenMode.shouldFix env) port
                 [ProcessExit 1]))
  ∧ (∀ jenv message,
       JoinMode.isConnectivityError message = true → JoinMode.isWSL jenv = true →
       ∃ rest,
         JoinMode.connect jenv port connectHost browserURL (Some message)
         = PuppeteerConnect browserURL :: RunWslDiagnostics port connectHost :: rest).
Proof.
  split_and!.
  - intros attempt. unfold attemptError, attemptCalls. split.
    + by intros m ->.
    + by intros ->.
  - intros [|k] [Hlo Hhi] Hfail Hok; [lia |].
    unfold OpenMode.connect.
    rewrite (connectLoop_first_success k 5 1 None); [done | lia | lia | |].
    + intros j ? ?. apply Hfail; lia.
    + rewrite <- Hok. f_equal. lia.
  - intros Hfail.
    assert (Hloop : OpenMode.connectLoop env browserURL 1 None 5
                    = (attemptError env 5, attempts env browserURL 1 5)).
    { rewrite connectLoop_all_fail; [done | lia |]. intros j ? ?. apply Hfail; lia. }
    split; [done |]. unfold OpenMode.connect. rewrite Hloop.
    destruct (attemptError env 5) eqn:Hlast; [done |]. by destruct (Hfail 5).
  - intros jenv message Hmsg Hwsl. unfold JoinMode.connect, JoinMode.onConnectError.
    rewrite Hmsg, Hwsl. by eexists.
Qed.

End ConnectWithRetry.

(** *** The port proxy after a launch *)

Section PortProxy.
Import Monitor Chrome.

Variables (env : LaunchEnv) (port : Z).

Lemma bindAddressOf_cases lines a :
  bindAddressOf port lines = Some a → a = "127.0.0.1" ∨ a = "::1".
Proof.
  induction lines as [|line rest IH]; simpl; [done |].
  destruct (Js.includes line _); [intros [= <-]; by left |].
  destruct (Js.includes line _); [intros [= <-]; by right |]. done.
Qed.

Lemma detectedAt_cases i a :
  detectedAt env port i = Some a → a = "127.0.0.1" ∨ a = "::1".
Proof.
  unfold detectedAt. destruct (netstatAt env i); [| done]. apply bindAddressOf_cases.
Qed.

Lemma pollBindAddress_undetected : ∀ remaining i,
  (∀ j, (i ≤ j)%nat → (j < i + remaining)%nat → detectedAt env port j = None) →
  pollBindAddress env port i remaining = (None, polls remaining).
Proof.
  induction remaining as [|remaining IH]; intros i Hnone; [done |].
  cbn [pollBindAddress]. fold (detectedAt env port i).
  rewrite (Hnone i) by lia. rewrite IH; [done |].
  intros j ? ?. apply Hnone; lia.
Qed.

Lemma pollBindAddress_detected : ∀ (k remaining i : nat) a,
  (k < remaining)%nat →
  (∀ j, (i ≤ j)%nat → (j < i + k)%nat → detectedAt env port j = None) →
  detectedAt env port (i + k) = Some a →
  pollBindAddress env port i remaining = (Some a, polls (S k)).
Proof.
  induction k as [|k IH]; intros remaining i a Hk Hnone Hdet;
    (destruct remaining as [|remaining]; [lia |]);
    cbn [pollBindAddress]; fold (detectedAt env port i).
  - rewrite Nat.add_0_r in Hdet. by rewrite Hdet.
  - rewrite (Hnone i) by lia. rewrite (IH remaining (S i) a); [done | lia | |].
    + intros j ? ?. apply Hnone; lia.
    + rewrite <- Hdet. f_equal. lia.
Qed.

(** C5. After a launch that went through, the bind address is polled at
    most 10 times, each poll a sleep of 500 ms and a [netstat]. When no poll
    detects a listener on [127.0.0.1] or [[::1]] all 10 polls are made and the
    rule added is [v4tov4] to [127.0.0.1]; when poll [k] is the first to
    detect one, polling stops there and the rule added is [v4tov4] for
    [127.0.0.1] and [v4tov6] for [::1]. In both cases the rules of both types
    for the port are deleted right before the add. This holds for
    [startChromeOnWindows] and for the launch of open mode. *)
Theorem port_proxy_follows_bind_address
    (chromePath profileDir windowsUserDataDir url : string) :
  startProcessFails env = false →
  let launch :=
    [NetshDelete v4tov4 port;
     StartProcess chromePath
       ["--remote-debugging-port=" +:+ Js.ofZ port;
        "--user-data-dir=" +:+ Js.dquote +:+ profileDir +:+ Js.dquote]] in
  let launchOpen :=
    StartProcess chromePath
      ["--remote-debugging-port=" +:+ Js.ofZ port;
       "--user-data-dir=" +:+ windowsUserDataDir;
       "--disable-session-crashed-bubble"; "--start-maximized"; url] in
  ((∀ j, (j < 10)%nat → detectedAt env port j = None) →
   startChromeOnWindows env chromePath port profileDir
   = (true, launch ++ polls 10
              ++ [NetshDeleteBoth port; NetshAdd v4tov4 port "127.0.0.1"])
   ∧ OpenMode.launchOnWindows env chromePath port windowsUserDataDir url
     = Exec launchOpen :: (Exec <$> polls 10)
         ++ [Exec (NetshDeleteBoth port); Exec (NetshAdd v4tov4 port "127.0.0.1")])
  ∧ (∀ (k : nat) a,
       (k < 10)%nat →
       (∀ j, (j < k)%nat → detectedAt env port j = None) →
       detectedAt env port k = Some a →
       ∃ ty,
         ((a = "127.0.0.1" ∧ ty = v4tov4) ∨ (a = "::1" ∧ ty = v4tov6))
         ∧ startChromeOnWindows env chromePath port profileDir
           = (true, launch ++ polls (S k) ++ [NetshDeleteBoth port; NetshAdd ty port a])
         ∧ OpenMode.launchOnWindows env chromePath port windowsUserDataDir url
           = Exec launchOpen :: (Exec <$> polls (S k))
               ++ [Exec (NetshDeleteBoth port); Exec (NetshAdd ty port a)]).
Proof.
  intros Hstart launch launchOpen. subst launch launchOpen.
  unfold startChromeOnWindows, OpenMode.launchOnWindows. rewrite Hstart. split.
  - intros Hnone.
    rewrite (pollBindAddress_undetected 10 0) by (intros j ? ?; apply Hnone; lia).
    done.
  - intros k a Hk Hnone Hdet.
    rewrite (pollBindAddress_detected k 10 0 a); [| lia | intros j ? ?; apply Hnone; lia | done].
    cbn [default from_option].
    destruct (detectedAt_cases k a Hdet) as [-> | ->].
    + exists v4tov4. split; [by left | done].
    + exists v4tov6. split; [by right | done].
Qed.

End PortProxy.

(** A Chrome that shows up on [[::1]:9222] at the third poll gets a
    [v4tov6] rule after three polls. *)
Lemma port_proxy_follows_bind_address_witness :
  let env :=
    Chrome.mkLaunchEnv false
      (λ i, if (i =? 2)%nat
            then Some "  TCP    0.0.0.0:135      0.0.0.0:0    LISTENING    1044
  TCP    [::1]:9222       [::]:0       LISTENING    4242
"
            else Some "  TCP    0.0.0.0:135      0.0.0.0:0    LISTENING    1044
") in
  Chrome.startChromeOnWindows env "C:\Chrome\chrome.exe" 9222 "C:\profiles\shop_1a2b"
  = (true,
     [Chrome.NetshDelete Chrome.v4tov4 9222;
      Chrome.StartProcess "C:\Chrome\chrome.exe"
        ["--remote-debugging-port=9222";
         "--user-data-dir=" +:+ Js.dquote +:+ "C:\profiles\shop_1a2b" +:+ Js.dquote]]
       ++ polls 3
       ++ [Chrome.NetshDeleteBoth 9222; Chrome.NetshAdd Chrome.v4tov6 9222 "::1"]).
Proof.
  intros env.
  destruct (port_proxy_follows_bind_address env 9222
              "C:\Chrome\chrome.exe" "C:\profiles\shop_1a2b" "" "" eq_refl)
    as [_ Hdetected].
  destruct (Hdetected 2%nat "::1") as (ty & [[Ha _] | [_ ->]] & Hstart & _).
  - lia.
  - intros [|[|j]] Hj; [reflexivity | reflexivity | lia].
  - reflexivity.
  - discriminate Ha.
  - exact Hstart.
Defined.

(** *** The choice of a Chrome instance in the interactive menu *)

Section ChromeInstanceSelection.
Import InteractiveMode.

Lemma handleKey_cancel (items : list Item) str key char :
  keyChar str key = Some char →
  (∀ num, Js.parseInt char = Some num →
          ¬ (1 ≤ num ∧ num ≤ Z.of_nat (length items))) →
  handleKey items str (Some key) = Resolved None.
Proof.
  intros Hchar Hout. unfold handleKey. rewrite Hchar. case_bool_decide; [done |].
  destruct (Js.parseInt _) as [num|]; [| done].
  destruct (Z.leb_spec 1 num), (Z.leb_spec num (Z.of_nat (length items))); simpl; try done.
  by destruct (Hout num).
Qed.

Lemma handleKey_pick (items : list Item) str key char num :
  keyChar str key = Some char →
  char ≠ "q" →
  Js.parseInt char = Some num →
  1 ≤ num → num ≤ Z.of_nat (length items) →
  ∃ item, items !! Z.to_nat (num - 1) = Some item
          ∧ handleKey items str (Some key) = Resolved (Some (port item)).
Proof.
  intros Hchar Hq Hnum Hlo Hhi. unfold handleKey. rewrite Hchar.
  rewrite bool_decide_eq_false_2 by done.
  rewrite Hnum.
  destruct (Z.leb_spec 1 num), (Z.leb_spec num (Z.of_nat (length items))); try lia.
  destruct (lookup_lt_is_Some_2 items (Z.to_nat (num - 1))) as [item Hitem]; [lia |].
  exists item. by rewrite Hitem.
Qed.

(** X7. The outcomes of [askUserToSelectChromeInstance]. It resolves to
    [null] for the empty list and to the port of the only entry of a
    one-element list, without a prompt in either case. With two or more entries it
    prompts, and the keypress decides. When the event carries a character
    (a key name or a string): [q] resolves to [null]; a character that
    [parseInt] reads as a number between 1 and the length of the list
    resolves to the port of the entry at that position; every other
    character resolves to [null], never to the first entry. When the event
    carries neither a key name nor a string, [handleKey] throws and the
    promise is left unsettled. *)
Theorem askUserToSelectChromeInstance_cases (items : list Item) (str : option string)
    (key : Key) :
  (items = [] →
   ∀ keypress, askUserToSelectChromeInstance items str keypress = (Resolved None, false))
  ∧ (∀ item, items = [item] →
       ∀ keypress,
         askUserToSelectChromeInstance items str keypress
         = (Resolved (Some (port item)), false))
  ∧ ((2 ≤ length items)%nat →
     (∀ char, keyChar str key = Some char →
        (char = "q" →
         askUserToSelectChromeInstance items str (Some key) = (Resolved None, true))
        ∧ (∀ num,
             char ≠ "q" →
             Js.parseInt char = Some num →
             1 ≤ num → num ≤ Z.of_nat (length items) →
             ∃ item, items !! Z.to_nat (num - 1) = Some item
                     ∧ askUserToSelectChromeInstance items str (Some key)
                       = (Resolved (Some (port item)), true))
        ∧ ((∀ num, Js.parseInt char = Some num →
                   ¬ (1 ≤ num ∧ num ≤ Z.of_nat (length items))) →
           askUserToSelectChromeInstance items str (Some key) = (Resolved None, true)))
     ∧ (keyChar str key = None →
        askUserToSelectChromeInstance items str (Some key) = (Throws, true))).
Proof.
  split_and!.
  - by intros ->.
  - by intros item ->.
  - intros Hlen.
    assert (Hprompt : askUserToSelectChromeInstance items str (Some key)
                      = (handleKey items str (Some key), true)).
    { destruct items as [|i1 [|i2 rest]]; simpl in Hlen; [lia | lia | done]. }
    rewrite Hprompt. split.
    + intros char Hchar. split_and!.
      * intros ->. unfold handleKey. rewrite Hchar. by rewrite bool_decide_eq_true_2.
      * intros num Hq Hnum Hlo Hhi.
        destruct (handleKey_pick items str key char num Hchar Hq Hnum Hlo Hhi)
          as (item & Hitem & ->).
        by exists item.
      * intros Hout. by rewrite (handleKey_cancel items str key char).
    + intros Hchar. unfold handleKey. by rewrite Hchar.
Qed.

(** C10. The claim fails on the code for a keypress that carries neither a
    key name nor a string, as readline emits for an escape sequence it has
    no name for (Escape and then a punctuation mark): with two instances on
    offer [handleKey] throws on [(key.name || str).toLowerCase()] and the
    promise is never resolved, where the claim has it resolve to [null].
    The same event with a string resolves to [null]. *)
Theorem askUserToSelectChromeInstance_throws_without_character :
  let items := [mkItem 9222 "9222 – shop"; mkItem 9223 "9223 – blog"] in
  let unnamedEscape := mkKey None false true false in
  askUserToSelectChromeInstance items None (Some unnamedEscape) = (Throws, true)
  ∧ askUserToSelectChromeInstance items (Some "!") (Some unnamedEscape)
    = (Resolved None, true).
Proof. split; reflexivity. Qed.

End ChromeInstanceSelection.

(** ** The functions on concrete inputs *)

Section Scenarios.
Import Monitor.

Example parseInt_reads_a_prefix :
  Js.parseInt "2" = Some 2 ∧ Js.parseInt " 12px" = Some 12
  ∧ Js.parseInt "q" = None ∧ Js.parseInt "return" = None ∧ Js.parseInt "" = None.
Proof. split_and!; reflexivity. Qed.

Example pidMatch_reads_the_last_column :
  Chrome.pidMatch "chrome.exe --remote-debugging-port=9222 --user-data-dir=C:\browsermonitor\p   4242  "
  = Some "4242"
  ∧ Chrome.pidMatch "chrome.exe --remote-debugging-port=9222" = Some "9222"
  ∧ Chrome.pidMatch "chrome.exe --type=renderer" = None.
Proof. split_and!; reflexivity. Qed.

Example bind_address_of_netstat :
  Chrome.bindAddressOf 9222
    (Chrome.listeningLines 9222 "  TCP    127.0.0.1:9222    0.0.0.0:0    LISTENING    4242
  TCP    [::1]:9222        [::]:0       LISTENING    4242
") = Some "127.0.0.1"
  ∧ Chrome.bindAddressOf 9222
      (Chrome.listeningLines 9222 "  TCP    127.0.0.1:9222    10.0.0.7:51000    ESTABLISHED    4242
") = None.
Proof. split_and!; reflexivity. Qed.

Example findFreeDebugPort_skips_claimed_ports :
  Chrome.findFreeDebugPort
    [Chrome.mkInstance 9222 "default" "127.0.0.1"; Chrome.mkInstance 9223 "default" "127.0.0.1"]
    9222 = 9224.
Proof. reflexivity. Qed.

Example connectionPages_drops_internal_pages :
  JoinMode.connectionPages
    [mkPage 0 "chrome://newtab/"; mkPage 1 "about:blank"; mkPage 2 "https://localhost:4000/"]
  = [mkPage 2 "https://localhost:4000/"]
  ∧ JoinMode.connectionPages [mkPage 0 "chrome://newtab/"; mkPage 1 "about:blank"]
    = [mkPage 0 "chrome://newtab/"; mkPage 1 "about:blank"]
  ∧ JoinMode.userTabs [mkPage 0 "chrome://newtab/"; mkPage 1 "about:blank"]
    = [mkPage 1 "about:blank"].
Proof. split_and!; reflexivity. Qed.

Example second_trigger_has_no_effect :
  JoinMode.deliver (JoinMode.mkSession false true true) [KeyK; SIGINT; HardTimeout]
  = (JoinMode.mkSession true true true, [HttpServerClose; BrowserClose; ProcessExit 0])
  ∧ OpenMode.deliver false (OpenMode.mkSession false true true true) [SIGTERM; KeyK]
    = (OpenMode.mkSession true true true true,
       [HttpServerClose; BrowserDisconnect; UnlinkPidFile; ProcessExit 0]).
Proof. split_and!; reflexivity. Qed.

(** A signal that arrives before the browser is connected, and a hard
    timeout of a session without an HTTP server. *)
Example cleanup_before_the_connection :
  JoinMode.deliver (JoinMode.mkSession false true false) [SIGINT; SIGINT]
  = (JoinMode.mkSession true true false, [HttpServerClose; ProcessExit 0])
  ∧ JoinMode.deliver (JoinMode.mkSession false false true) [HardTimeout]
    = (JoinMode.mkSession true false true, [BrowserDisconnect; ProcessExit 1])
  ∧ OpenMode.deliver false (OpenMode.mkSession false false false false) [SIGINT]
    = (OpenMode.mkSession true false false false, [UnlinkPidFile; ProcessExit 0]).
Proof. split_and!; reflexivity. Qed.

Example declined_fix_changes_nothing :
  JoinMode.onConnectError
    (JoinMode.mkFailureEnv true (mkDiag true (Some 9223)) false) 9222 "172.24.0.1"
    "connect ECONNREFUSED 172.24.0.1:9222"
  = [RunWslDiagnostics 9222 "172.24.0.1"; AskYesNo fixQuestion; ProcessExit 1]
  ∧ JoinMode.onConnectError
      (JoinMode.mkFailureEnv true (mkDiag true (Some 9223)) true) 9222 "172.24.0.1"
      "connect ECONNREFUSED 172.24.0.1:9222"
    = [RunWslDiagnostics 9222 "172.24.0.1"; AskYesNo fixQuestion;
       Exec (Chrome.NetshExeDelete 9223); KillPuppeteerMonitorChromes true; ProcessExit 0].
Proof. split_and!; reflexivity. Qed.

Example connect_stops_at_the_first_success :
  OpenMode.connect
    (OpenMode.mkConnectEnv
       (λ attempt, if attempt =? 1 then OpenMode.ProbeThrows "fetch failed"
                   else OpenMode.ProbeCompletes)
       (λ attempt, if attempt =? 2 then OpenMode.ConnectThrows "socket hang up"
                   else OpenMode.Connects)
       (mkDiag false None) false)
    "http://172.24.0.1:9222" 9222 "172.24.0.1"
  = (true,
     [Timeout 1500; FetchVersion "http://172.24.0.1:9222/json/version";
      Timeout 1500; FetchVersion "http://172.24.0.1:9222/json/version";
      PuppeteerConnect "http://172.24.0.1:9222";
      Timeout 1500; FetchVersion "http://172.24.0.1:9222/json/version";
      PuppeteerConnect "http://172.24.0.1:9222"]).
Proof. reflexivity. Qed.

Example instance_menu_keys :
  let items := [InteractiveMode.mkItem 9222 "9222 – shop"; InteractiveMode.mkItem 9223 "9223 – blog"] in
  let press name := InteractiveMode.mkKey (Some name) false false false in
  InteractiveMode.handleKey items (Some "2") (Some (press "2"))
  = InteractiveMode.Resolved (Some 9223)
  ∧ InteractiveMode.handleKey items (Some "q") (Some (press "q"))
    = InteractiveMode.Resolved None
  ∧ InteractiveMode.handleKey items (Some "3") (Some (press "3"))
    = InteractiveMode.Resolved None
  ∧ InteractiveMode.handleKey items None (Some (press "return"))
    = InteractiveMode.Resolved None
  ∧ InteractiveMode.handleKey items (Some "x") None = InteractiveMode.Pending.
Proof. split_and!; reflexivity. Qed.

End Scenarios.

(** ** The theorems at concrete inputs *)

(** An unrelated Chrome bound to [0.0.0.0] stands first; the instance with
    the project's profile is found as an exact match. *)
Lemma findProjectChrome_tiers_witness :
  let other :=
    Chrome.mkInstance 9222 "C:\Users\me\AppData\Local\Google\Chrome\User Data" "0.0.0.0" in
  let ours :=
    Chrome.mkInstance 9223 "C:\Users\me\AppData\Local\browsermonitor\shop_1a2b3c" "127.0.0.1" in
  Chrome.findProjectChrome "shop" "shop_1a2b3c" [other; ours]
  = Chrome.mkMatch true (Some ours) Chrome.MatchExact.
Proof.
  intros other ours.
  destruct (findProjectChrome_tiers "shop" "shop_1a2b3c" [other; ours]) as (_ & Hfirst & _).
  apply (Hfirst [other] ours []); [reflexivity | | reflexivity].
  apply List.Forall_cons; [reflexivity | apply List.Forall_nil].
Defined.

(** An endpoint that never answers: five attempts, then the diagnostics. *)
Lemma connect_retries_then_diagnoses_witness :
  let env :=
    OpenMode.mkConnectEnv (λ _, OpenMode.ProbeThrows "fetch failed") (λ _, OpenMode.Connects)
      (Monitor.mkDiag false None) false in
  OpenMode.connect env "http://172.24.0.1:9222" 9222 "172.24.0.1"
  = (false,
     attempts env "http://172.24.0.1:9222" 1 5
       ++ [Monitor.RunWslDiagnostics 9222 "172.24.0.1"; Monitor.ProcessExit 1]).
Proof.
  intros env.
  destruct (connect_retries_then_diagnoses env "http://172.24.0.1:9222" 9222 "172.24.0.1")
    as (_ & _ & Hfail & _).
  apply Hfail. intros j _ _. discriminate.
Defined.

(** With 9222 and 9223 taken, the port returned is not a claimed one. *)
Lemma findFreeDebugPort_first_free_or_fallback_witness :
  let instances :=
    [Chrome.mkInstance 9222 "default" "127.0.0.1"; Chrome.mkInstance 9223 "default" "127.0.0.1"] in
  ¬ claimed instances (Chrome.findFreeDebugPort instances 9222).
Proof.
  intros instances.
  destruct (findFreeDebugPort_first_free_or_fallback instances 9222)
    as (_ & _ & Hfree & _).
  apply Hfree. exists 9300. split; [lia |].
  intros (i & Hi & Hport).
  apply elem_of_cons in Hi as [-> | Hi]; [discriminate Hport |].
  apply elem_of_cons in Hi as [-> | Hi]; [discriminate Hport |].
  by apply elem_of_nil in Hi.
Defined.

(** Two instances on offer and the key [7]: the selection is cancelled. *)
Lemma askUserToSelectChromeInstance_cases_witness :
  let items :=
    [InteractiveMode.mkItem 9222 "9222 – shop"; InteractiveMode.mkItem 9223 "9223 – blog"] in
  InteractiveMode.askUserToSelectChromeInstance items (Some "7")
    (Some (InteractiveMode.mkKey (Some "7") false false false))
  = (InteractiveMode.Resolved None, true).
Proof.
  intros items.
  destruct (askUserToSelectChromeInstance_cases items (Some "7")
              (InteractiveMode.mkKey (Some "7") false false false))
    as (_ & _ & Hprompt).
  assert (Hlen : (2 ≤ length items)%nat) by (unfold items; simpl; lia).
  destruct (Hprompt Hlen) as [Hchar _].
  destruct (Hchar "7" eq_refl) as (_ & _ & Hcancel).
  apply Hcancel. intros num Hnum. vm_compute in Hnum. injection Hnum as <-.
  unfold items. simpl. lia.
Defined.

(** ** Further properties of the code *)

(** *** [scanChromeInstances] *)

Section ScanChromeInstances.
Import Chrome.

Lemma scanLines_ports : ∀ (lines : list string) (seenPorts : gset Z),
  NoDup (port <$> scanLines seenPorts lines)
  ∧ ∀ p, p ∈ port <$> scanLines seenPorts lines
         ↔ (p ∉ seenPorts) ∧ ∃ line, line ∈ lines ∧ linePort line = Some p.
Proof.
  induction lines as [|line rest IH]; intros seenPorts.
  - split; [constructor |]. intros p. split.
    + by intros ?%elem_of_nil.
    + by intros [_ (line & ?%elem_of_nil & _)].
  - cbn [scanLines]. unfold linePort in *.
    assert (Hskip : (∀ p, (match portMatch line with
                           | Some digits => Js.parseInt digits
                           | None => None
                           end) = Some p → p ∈ seenPorts) →
      NoDup (port <$> scanLines seenPorts rest)
      ∧ ∀ p, p ∈ port <$> scanLines seenPorts rest
             ↔ (p ∉ seenPorts)
               ∧ ∃ l, l ∈ line :: rest
                      ∧ (match portMatch l with
                         | Some digits => Js.parseInt digits
                         | None => None
                         end) = Some p).
    { intros Hline. destruct (IH seenPorts) as [Hnd Hin]. split; [done |].
      intros p. rewrite Hin. split.
      - intros [Hp (l & Hl & Hlp)]. split; [done |]. exists l. split; [by right | done].
      - intros [Hp (l & [-> | Hl]%elem_of_cons & Hlp)].
        + by apply Hline in Hlp.
        + split; [done |]. by exists l. }
    destruct (portMatch line) as [digits|] eqn:Hport; [| by apply Hskip].
    destruct (Js.parseInt digits) as [portNum|] eqn:Hnum; [| by apply Hskip].
    case_bool_decide as Hseen; [apply Hskip; by intros p [= <-] |].
    destruct (IH ({[portNum]} ∪ seenPorts)) as [Hnd Hin]. split.
    + cbn [fmap list_fmap port]. apply NoDup_cons. split; [| done].
      intros [Habs _]%Hin. apply Habs. apply elem_of_union_l. by apply elem_of_singleton.
    + intros p. cbn [fmap list_fmap port]. rewrite elem_of_cons, Hin. split.
      * intros [-> | [Hp (l & Hl & Hlp)]].
        -- split; [done |]. exists line. split; [left |]. by rewrite Hport.
        -- split; [intros ?; apply Hp; by apply elem_of_union_r |].
           exists l. split; [by right | done].
      * intros [Hp (l & [-> | Hl]%elem_of_cons & Hlp)].
        -- left. rewrite Hport, Hnum in Hlp. by injection Hlp.
        -- destruct (decide (p = portNum)) as [-> | Hne]; [by left |].
           right. split; [| by exists l].
           intros [?%elem_of_singleton | ?]%elem_of_union; done.
Qed.

(** X1. The instances that [scanChromeInstances] returns have pairwise
    distinct ports, however many subprocess lines repeat a port; a port is
    among them exactly when some line of the process list announces it; and
    no instance is reported when Chrome is reported as not running. *)
Theorem scanChromeInstances_ports (env : ScanEnv) :
  let scan := scanChromeInstances env in
  NoDup (port <$> instances scan)
  ∧ (chromeRunning scan = false → instances scan = [])
  ∧ (∀ wmic, chromeRunning scan = true → wmicCommandLines env = Some wmic →
       ∀ p, p ∈ port <$> instances scan
            ↔ ∃ line, line ∈ debugLines (Js.trim wmic) ∧ linePort line = Some p).
Proof.
  intros scan. subst scan. unfold scanChromeInstances.
  destruct (getProcessOutput env) as [out|]; [| by split_and!; [constructor | |]].
  destruct (Js.isEmpty (Js.trim out)); [by split_and!; [constructor | |] |].
  destruct (wmicCommandLines env) as [wmic|]; [| by split_and!; [constructor | |]].
  destruct (Js.isEmpty (Js.trim wmic)) eqn:Hempty; cbn [instances chromeRunning].
  - split_and!; [constructor | done |].
    intros ? _ [= <-] p. destruct (Js.trim wmic); [| done]. split.
    + by intros ?%elem_of_nil.
    + by intros (line & ?%elem_of_nil & _).
  - destruct (scanLines_ports (debugLines (Js.trim wmic)) ∅) as [Hnd Hin].
    split_and!; [done | done |].
    intros ? _ [= <-] p. rewrite Hin. split.
    + by intros [_ ?].
    + intros ?. split; [apply not_elem_of_empty | done].
Qed.

Lemma filter_none {A} (P : A → Prop) `{∀ x, Decision (P x)} (l : list A) :
  (∀ x, x ∈ l → ¬ P x) → filter P l = [].
Proof.
  induction l as [|x l IH]; intros Hl; [done |].
  rewrite filter_cons_False by (apply Hl; left). apply IH. intros y Hy. apply Hl. by right.
Qed.

Lemma scanLines_first_line : ∀ (pre : list string) (line : string) (post : list string)
    (p : Z) (seenPorts : gset Z),
  (∀ l, l ∈ pre → linePort l ≠ Some p) →
  linePort line = Some p →
  p ∉ seenPorts →
  filter (λ i, port i = p) (scanLines seenPorts (pre ++ line :: post))
  = [mkInstance p (default "default" (userDataDirMatch line))
       (default "127.0.0.1" (addressMatch line))].
Proof.
  unfold linePort.
  induction pre as [|l pre IH]; intros line post p seenPorts Hpre Hline Hseen.
  - cbn [app scanLines].
    destruct (portMatch line) as [digits|]; [| done]. rewrite Hline.
    rewrite bool_decide_eq_false_2 by done.
    rewrite filter_cons_True by done. f_equal.
    apply filter_none. intros i Hi Hp.
    destruct (scanLines_ports post ({[p]} ∪ seenPorts)) as [_ Hin].
    assert (Hmem : p ∈ port <$> scanLines ({[p]} ∪ seenPorts) post).
    { apply list_elem_of_fmap. exists i. split; [by rewrite Hp | done]. }
    apply Hin in Hmem as [Hmem _]. apply Hmem, elem_of_union_l. by apply elem_of_singleton.
  - cbn [app scanLines].
    assert (Hl : (match portMatch l with
                  | Some digits => Js.parseInt digits
                  | None => None
                  end) ≠ Some p) by (apply Hpre; left).
    assert (Hrest : ∀ l', l' ∈ pre → (match portMatch l' with
                  | Some digits => Js.parseInt digits
                  | None => None
                  end) ≠ Some p) by (intros l' Hl'; apply Hpre; by right).
    destruct (portMatch l) as [digits|]; [| by apply IH].
    destruct (Js.parseInt digits) as [q|]; [| by apply IH].
    case_bool_decide; [by apply IH |].
    rewrite filter_cons_False by (cbn [port]; congruence).
    apply IH; [done | done |].
    intros [?%elem_of_singleton | ?]%elem_of_union; [congruence | done].
Qed.

(** X2. Of the lines that announce a debug port, the first one decides: the
    instance reported for that port carries the profile path and the bind
    address read from that line, [default] and [127.0.0.1] where the line
    names none, and no second instance is reported for the port. *)
Theorem scanChromeInstances_first_line_wins (env : ScanEnv) (wmic : string)
    (pre : list string) (line : string) (post : list string) (p : Z) :
  chromeRunning (scanChromeInstances env) = true →
  wmicCommandLines env = Some wmic →
  debugLines (Js.trim wmic) = pre ++ line :: post →
  (∀ l, l ∈ pre → linePort l ≠ Some p) →
  linePort line = Some p →
  filter (λ i, port i = p) (instances (scanChromeInstances env))
  = [mkInstance p (default "default" (userDataDirMatch line))
       (default "127.0.0.1" (addressMatch line))].
Proof.
  unfold scanChromeInstances.
  destruct (getProcessOutput env) as [out|]; [| done].
  destruct (Js.isEmpty (Js.trim out)); [done |].
  intros _ -> Hlines Hpre Hline.
  destruct (Js.isEmpty (Js.trim wmic)) eqn:Hempty; cbn [instances].
  - destruct (Js.trim wmic); [| done]. by destruct pre.
  - rewrite Hlines. apply scanLines_first_line; [done | done | apply not_elem_of_empty].
Qed.

Lemma scanLines_head : ∀ (lines : list string) (first : ChromeInstance)
    (others : list ChromeInstance),
  scanLines ∅ lines = first :: others →
  ∃ pre line post, lines = pre ++ line :: post
    ∧ (∀ l, l ∈ pre → linePort l = None)
    ∧ linePort line = Some (port first).
Proof.
  unfold linePort. induction lines as [|l lines IH]; intros first others; [done |].
  cbn [scanLines].
  assert (Hskip : (match portMatch l with
                   | Some digits => Js.parseInt digits
                   | None => None
                   end) = None →
    scanLines ∅ lines = first :: others →
    ∃ pre line post, l :: lines = pre ++ line :: post
      ∧ (∀ l', l' ∈ pre → (match portMatch l' with
                           | Some digits => Js.parseInt digits
                           | None => None
                           end) = None)
      ∧ (match portMatch line with
         | Some digits => Js.parseInt digits
         | None => None
         end) = Some (port first)).
  { intros Hl (pre & line & post & -> & Hpre & Hline)%IH.
    exists (l :: pre), line, post. split_and!; [done | | done].
    intros l' [-> | ?]%elem_of_cons; [done | by apply Hpre]. }
  destruct (portMatch l) as [digits|] eqn:Hport; [| by apply Hskip].
  destruct (Js.parseInt digits) as [q|] eqn:Hnum; [| by apply Hskip].
  rewrite bool_decide_eq_false_2 by apply not_elem_of_empty.
  intros [= <- _]. exists [], l, lines. split_and!; [done | | by rewrite Hport].
  by intros ? ?%elem_of_nil.
Qed.

(** X3. [checkChromeRunning] reports a debug port exactly when it reports
    Chrome as running with one, and the port it reports is the one that
    the first line of the process list with a debug port announces. *)
Theorem checkChromeRunning_reports_first_port (env : ScanEnv) :
  let status := checkChromeRunning env in
  (withDebugPort status = true ↔ is_Some (debugPort status))
  ∧ (withDebugPort status = true → running status = true)
  ∧ (∀ p, debugPort status = Some p →
       ∃ wmic pre line post,
         wmicCommandLines env = Some wmic
         ∧ debugLines (Js.trim wmic) = pre ++ line :: post
         ∧ (∀ l, l ∈ pre → linePort l = None)
         ∧ linePort line = Some p).
Proof.
  intros status. subst status. unfold checkChromeRunning, scanChromeInstances.
  assert (Hnone : ∀ r, (withDebugPort (mkStatus r false None) = true
                        ↔ is_Some (debugPort (mkStatus r false None)))
     ∧ (withDebugPort (mkStatus r false None) = true → running (mkStatus r false None) = true)
     ∧ (∀ p, debugPort (mkStatus r false None) = Some p →
       ∃ wmic pre line post,
         wmicCommandLines env = Some wmic
         ∧ debugLines (Js.trim wmic) = pre ++ line :: post
         ∧ (∀ l, l ∈ pre → linePort l = None)
         ∧ linePort line = Some p)).
  { intros r. cbn. split_and!; [| done | done]. split; [done | by intros [? ?]]. }
  destruct (getProcessOutput env) as [out|]; [| apply Hnone].
  destruct (Js.isEmpty (Js.trim out)); [apply Hnone |].
  destruct (wmicCommandLines env) as [wmic|]; [| apply Hnone].
  destruct (Js.isEmpty (Js.trim wmic)); [apply Hnone |].
  cbn [chromeRunning instances negb].
  destruct (scanLines ∅ (debugLines (Js.trim wmic))) as [|first others] eqn:Hscan;
    [apply Hnone |].
  cbn. split_and!; [| done |].
  - split; [by eexists | done].
  - intros p [= <-]. apply scanLines_head in Hscan as (pre & line & post & ? & ? & ?).
    by exists wmic, pre, line, post.
Qed.
End ScanChromeInstances.

(** *** The interactive menu *)

Section InteractiveMenu.
Import InteractiveMode.

Lemma probePorts_ports (versionAt : Z → option (option string)) :
  ∀ (fuel : nat) (first : Z),
    9229 - first < Z.of_nat fuel →
    StronglySorted Z.lt (port <$> probePorts versionAt first fuel)
    ∧ ∀ p, p ∈ port <$> probePorts versionAt first fuel
           ↔ (first ≤ p ∧ p ≤ 9229) ∧ is_Some (versionAt p).
Proof.
  induction fuel as [|fuel IH]; intros first Hfuel; cbn [probePorts].
  - split; [constructor |]. intros p. split; [by intros ?%elem_of_nil | lia].
  - destruct (Z.leb_spec first 9229) as [Hle | Hgt].
    + destruct (IH (first + 1)) as [Hsorted Hin]; [lia |].
      assert (Hlater : ∀ p, (first + 1 ≤ p ∧ p ≤ 9229) ∧ is_Some (versionAt p)
                            ↔ ((first ≤ p ∧ p ≤ 9229) ∧ is_Some (versionAt p)) ∧ p ≠ first).
      { intros p. split; [intros [? ?]; split_and!; [lia | lia | done | lia] |].
        intros [[? ?] ?]. split; [lia | done]. }
      destruct (versionAt first) as [browser|] eqn:Hversion.
      * cbn [fmap list_fmap port]. split.
        -- constructor; [done |]. apply Forall_forall. intros q [[? _] _]%Hin. lia.
        -- intros p. rewrite elem_of_cons, Hin, Hlater. split.
           ++ intros [-> | [? _]]; [| done]. split; [lia | by rewrite Hversion].
           ++ intros ?. destruct (decide (p = first)); [by left | by right].
      * split; [done |]. intros p. rewrite Hin, Hlater. split; [by intros [? _] |].
        intros Hp. split; [done |]. intros ->. destruct Hp as [_ [? ?]]. congruence.
    + split; [constructor |]. intros p. split; [by intros ?%elem_of_nil | lia].
Qed.

(** X4. [getChromeInstances] never lists a port twice. On WSL it lists the
    ports of the instances that [scanChromeInstances] found, in their
    order; elsewhere it lists, in increasing order, exactly the ports from
    9222 to 9229 whose [/json/version] answered. *)
Theorem getChromeInstances_ports (env : InstancesEnv) :
  let ports := port <$> getChromeInstances env in
  NoDup ports
  ∧ (isWsl env = true →
       ports = Chrome.port <$> Chrome.instances (Chrome.scanChromeInstances (scanEnv env)))
  ∧ (isWsl env = false →
       StronglySorted Z.lt ports
       ∧ ∀ p, p ∈ ports ↔ (9222 ≤ p ∧ p ≤ 9229) ∧ is_Some (versionAt env p)).
Proof.
  intros ports. subst ports. unfold getChromeInstances.
  destruct (isWsl env).
  - rewrite <- list_fmap_compose.
    split_and!; [| done | done].
    apply (scanChromeInstances_ports (scanEnv env)).
  - destruct (probePorts_ports (versionAt env) 8 9222) as [Hsorted Hin]; [lia |].
    split_and!; [| done | done].
    clear Hin. induction Hsorted as [|p ports Hsorted IH Hall]; constructor; [| done].
    intros Hp. eapply Forall_forall in Hall; [| done]. lia.
Qed.

Lemma firstInstances_elem_of (scans : list (list Item)) (items : list Item) :
  firstInstances scans = Some items → items ∈ scans ∧ items ≠ [].
Proof.
  induction scans as [|scan scans IH]; [done |]. cbn [firstInstances].
  destruct scan as [|item scan].
  - intros [? ?]%IH. split; [by right | done].
  - intros [= <-]. split; [left | done].
Qed.

Lemma handleKey_offers (items : list Item) (str : option string) (key : option Key) (p : Z) :
  handleKey items str key = Resolved (Some p) → p ∈ port <$> items.
Proof.
  unfold handleKey. destruct key as [key|]; [| done].
  destruct (keyChar str key) as [char|]; [| done].
  case_bool_decide; [done |].
  destruct (Js.parseInt _) as [num|]; [| done].
  destruct (_ && _); [| done].
  intros [= Hp]. destruct (items !! _) as [item|] eqn:Hitem; [| done].
  injection Hp as <-. apply list_elem_of_fmap. exists item. split; [done |].
  by eapply list_elem_of_lookup_2.
Qed.

(** X5. The port that the key [j] of the menu hands to [runJoinMode] is
    the port of an instance that one of the collections before it found. *)
Theorem joinFromMenu_port_was_found (envs : list InstancesEnv) (str : option string)
    (key : option Key) (p : Z) :
  joinFromMenu (getChromeInstances <$> envs) str key = RunsJoinMode p →
  ∃ env, env ∈ envs ∧ p ∈ port <$> getChromeInstances env.
Proof.
  unfold joinFromMenu.
  destruct (firstInstances _) as [items|] eqn:Hfirst; [| done].
  apply firstInstances_elem_of in Hfirst as [(env & -> & Henv)%list_elem_of_fmap _].
  intros Hjoin. exists env. split; [done |].
  unfold askUserToSelectChromeInstance in Hjoin.
  destruct (getChromeInstances env) as [|item [|item' items]] eqn:Hitems; [done | |].
  - cbn in Hjoin. injection Hjoin as <-. cbn. left.
  - cbn [andb] in Hjoin. destruct (exitsProcess _); [done |].
    destruct (handleKey _ _ _) as [[q|]| |] eqn:Hkey; [| done | done | done].
    injection Hjoin as ->. by apply handleKey_offers in Hkey.
Qed.

(** X6. While the prompt for the instance is open the listener of the menu
    still receives every key, and receives it first: Ctrl+C and a plain [q]
    end the process before the prompt sees the key, so [q] never comes back
    to the menu as a cancelled selection. *)
Theorem prompt_quit_key_exits (scans : list (list Item)) (items : list Item)
    (str : option string) (key : Key) :
  firstInstances scans = Some items →
  (2 ≤ length items)%nat →
  (ctrl key = true ∧ name key = Some "c")
  ∨ (ctrl key = false ∧ shift key = false ∧ meta key = false ∧ keyChar str key = Some "q") →
  joinFromMenu scans str (Some key) = ProcessExited.
Proof.
  intros Hfirst Hlen Hkey. unfold joinFromMenu. rewrite Hfirst.
  unfold askUserToSelectChromeInstance.
  destruct items as [|item [|item' items]]; [cbn in Hlen; lia | cbn in Hlen; lia |].
  assert (Hexit : menuListener str (Some key) = ExitsProcess).
  { unfold menuListener. cbn [from_option mbind option_bind].
    destruct Hkey as [[-> ->] | (-> & -> & -> & ->)]; [done |].
    cbn [andb orb]. by rewrite bool_decide_eq_true_2. }
  by rewrite Hexit.
Qed.

End InteractiveMenu.

(** *** The keyboard of a session *)

Section Keyboard.
Import Monitor.

(** The handlers of join mode and of open mode test the keys in different
    orders and do the same for every key. *)
Lemma onKeypress_same_in_both_modes (ui : Ui) (key : Keypress) :
  OpenMode.onKeypress ui key = JoinMode.onKeypress ui key.
Proof.
  unfold OpenMode.onKeypress, JoinMode.onKeypress, isKey.
  destruct (keyCtrl key), (keyShift key), (keyMeta key), (isSelectingTab ui);
    cbn [andb orb]; try done.
  all: destruct (keyName key) as [name|]; [| done].
  all: repeat (case_bool_decide; [simplify_eq; try done |]); try done.
  all: repeat (case_bool_decide; [simplify_eq; try done |]); try done.
Qed.


Lemma onKeypresses_same (keys : list Keypress) : ∀ ui,
  OpenMode.onKeypresses ui keys = JoinMode.onKeypresses ui keys.
Proof.
  induction keys as [|key keys IH]; intros ui; [done |].
  cbn [OpenMode.onKeypresses JoinMode.onKeypresses].
  rewrite onKeypress_same_in_both_modes.
  destruct (JoinMode.onKeypress ui key) as [ui1 cmds1]. by rewrite IH.
Qed.

Lemma maybeShowHelp_eq (ui : Ui) :
  maybeShowHelp ui
  = (mkUi (collectingPaused ui) (outputCounter ui + 1) (isSelectingTab ui),
     if (outputCounter ui + 1) mod 5 =? 0 then [CmdReadyHelp] else []).
Proof. done. Qed.

(** What one key does, case by case. *)
Lemma onKeypress_cases (ui : Ui) (key : Keypress) ui' cmds :
  JoinMode.onKeypress ui key = (ui', cmds) →
  isSelectingTab ui' = isSelectingTab ui
  ∧ ((ui' = ui
      ∧ (cmds = [] ∨ cmds = [CmdPrintHelp] ∨ cmds = [CmdCleanup 0 false]
         ∨ (cmds = [CmdCleanup 0 true] ∧ isPlainKey key "k" ∧ isSelectingTab ui = false)))
     ∨ (∃ cmd paused,
          isCounted cmd = true
          ∧ ui' = mkUi paused (outputCounter ui + 1) (isSelectingTab ui)
          ∧ cmds = cmd :: (if (outputCounter ui + 1) mod 5 =? 0 then [CmdReadyHelp] else [])
          ∧ (paused ≠ collectingPaused ui →
             isPlainKey key "p" ∧ isSelectingTab ui = false
             ∧ cmd = CmdLogPaused paused))).
Proof.
  unfold JoinMode.onKeypress, isKey, isPlainKey. rewrite !maybeShowHelp_eq.
  cbn [collectingPaused outputCounter isSelectingTab].
  assert (Hsame : ∀ c : list Command,
    (c = [] ∨ c = [CmdPrintHelp] ∨ c = [CmdCleanup 0 false]) →
    (ui, c) = (ui', cmds) →
    isSelectingTab ui' = isSelectingTab ui
    ∧ ((ui' = ui
      ∧ (cmds = [] ∨ cmds = [CmdPrintHelp] ∨ cmds = [CmdCleanup 0 false]
         ∨ (cmds = [CmdCleanup 0 true]
            ∧ (keyName key = Some "k" ∧ keyCtrl key = false ∧ keyShift key = false
               ∧ keyMeta key = false)
            ∧ isSelectingTab ui = false)))
     ∨ (∃ cmd paused,
          isCounted cmd = true
          ∧ ui' = mkUi paused (outputCounter ui + 1) (isSelectingTab ui)
          ∧ cmds = cmd :: (if (outputCounter ui + 1) mod 5 =? 0 then [CmdReadyHelp] else [])
          ∧ (paused ≠ collectingPaused ui →
             (keyName key = Some "p" ∧ keyCtrl key = false ∧ keyShift key = false
              ∧ keyMeta key = false)
             ∧ isSelectingTab ui = false
             ∧ cmd = CmdLogPaused paused)))).
  { intros c Hc [= <- <-]. split; [done |]. left. split; [done |]. tauto. }
  destruct (keyCtrl key) eqn:Hctrl; cbn [andb orb].
  { case_bool_decide; [apply Hsame; auto |].
    destruct (isSelectingTab ui); apply Hsame; auto. }
  destruct (isSelectingTab ui) eqn:Hsel; [apply Hsame; auto |].
  destruct (keyShift key) eqn:Hshift; cbn [orb]; [apply Hsame; auto |].
  destruct (keyMeta key) eqn:Hmeta; [apply Hsame; auto |].
  destruct (keyName key) as [name|];
    [| repeat case_bool_decide; try done; apply Hsame; auto].
  repeat (case_bool_decide; [simplify_eq |]); try (apply Hsame; by auto).
  - intros [= <- <-]. split; [done |]. right.
    exists CmdDump, (collectingPaused ui). by split_and!.
  - intros [= <- <-]. split; [done |]. right.
    exists CmdClear, (collectingPaused ui). by split_and!.
  - intros [= <- <-]. split; [by rewrite Hsel |]. left.
    split; [done |]. do 3 right. by split_and!.
  - intros [= <- <-]. split; [done |]. right.
    exists CmdStatus, (collectingPaused ui). by split_and!.
  - intros [= <- <-]. split; [done |]. right.
    exists (CmdLogPaused (negb (collectingPaused ui))), (negb (collectingPaused ui)).
    by split_and!.
  - intros [= <- <-]. split; [done |]. right.
    exists CmdSwitchTabs, (collectingPaused ui). by split_and!.
Qed.

Lemma countCommands_app f (a b : list Command) :
  countCommands f (a ++ b) = countCommands f a + countCommands f b.
Proof. unfold countCommands. rewrite List.filter_app, length_app. lia. Qed.

Lemma reminder_step (c : Z) :
  (c + 1) / 5 - c / 5 = if (c + 1) mod 5 =? 0 then 1 else 0.
Proof.
  pose proof (Z.div_mod (c + 1) 5 ltac:(lia)).
  pose proof (Z.div_mod c 5 ltac:(lia)).
  pose proof (Z.mod_pos_bound c 5 ltac:(lia)).
  pose proof (Z.mod_pos_bound (c + 1) 5 ltac:(lia)).
  destruct (Z.eqb_spec ((c + 1) mod 5) 0); lia.
Qed.

Lemma onKeypresses_counts (keys : list Keypress) : ∀ ui ui' cmds,
  JoinMode.onKeypresses ui keys = (ui', cmds) →
  outputCounter ui' = outputCounter ui + countCommands isCounted cmds
  ∧ countCommands isReadyHelp cmds = outputCounter ui' / 5 - outputCounter ui / 5.
Proof.
  induction keys as [|key keys IH]; intros ui ui' cmds; cbn [JoinMode.onKeypresses].
  - intros [= <- <-]. unfold countCommands. cbn [List.filter length].
    rewrite Z.sub_diag. split; [| done]. change (Z.of_nat 0) with 0. lia.
  - destruct (JoinMode.onKeypress ui key) as [ui1 cmds1] eqn:Hkey.
    destruct (JoinMode.onKeypresses ui1 keys) as [ui2 cmds2] eqn:Hrest.
    intros [= <- <-]. apply IH in Hrest as [Hcount Hready].
    rewrite Hcount in Hready |- *. rewrite !countCommands_app, Hready.
    apply onKeypress_cases in Hkey as [_ [[-> Hcmds] | (cmd & paused & Hcmd & -> & -> & _)]].
    + assert (countCommands isCounted cmds1 = 0 ∧ countCommands isReadyHelp cmds1 = 0)
        as [-> ->]; [| lia].
      destruct Hcmds as [-> | [-> | [-> | [-> _]]]]; done.
    + cbn [outputCounter]. pose proof (reminder_step (outputCounter ui)) as Hstep.
      assert (isReadyHelp cmd = false) as Hnot by by destruct cmd.
      destruct ((outputCounter ui + 1) mod 5 =? 0);
        unfold countCommands; cbn [List.filter length]; rewrite Hcmd, Hnot;
        cbn [List.filter length isCounted isReadyHelp]; lia.
Qed.

(** X9. [maybeShowHelp] prints the key reminder after every fifth command
    that counts (dump, clear, status, pause and tab switch): from a counter
    at zero, the reminders of any sequence of keys number a fifth, rounded
    down, of the counted commands, in open mode as in join mode. *)
Theorem help_reminder_every_fifth_command (ui : Ui) (keys : list Keypress) :
  outputCounter ui = 0 →
  let cmds := (JoinMode.onKeypresses ui keys).2 in
  countCommands isReadyHelp cmds = countCommands isCounted cmds / 5
  ∧ (OpenMode.onKeypresses ui keys).2 = cmds.
Proof.
  intros Hzero cmds. subst cmds. rewrite onKeypresses_same. split; [| done].
  destruct (JoinMode.onKeypresses ui keys) as [ui' cmds] eqn:Hrun.
  apply onKeypresses_counts in Hrun as [Hcount Hready].
  cbn [snd]. rewrite Hready, Hcount, Hzero.
  change (0 `div` 5) with 0. by rewrite Z.add_0_l, Z.sub_0_r.
Qed.

(** X8. Join mode and open mode handle every sequence of keys alike. Every
    exit asked for from the keyboard has code 0, and Chrome is closed only
    when [k] was pressed without Ctrl, Shift or Meta and outside a tab
    selection. *)
Theorem keyboard_closes_chrome_only_on_k (ui : Ui) (keys : list Keypress) :
  let run := JoinMode.onKeypresses ui keys in
  OpenMode.onKeypresses ui keys = run
  ∧ ∀ code closeBrowser, CmdCleanup code closeBrowser ∈ run.2 →
      code = 0
      ∧ (closeBrowser = true →
         isSelectingTab ui = false ∧ ∃ key, key ∈ keys ∧ isPlainKey key "k").
Proof.
  intros run. subst run. split; [apply onKeypresses_same |].
  intros code closeBrowser. revert ui.
  induction keys as [|key keys IH]; intros ui; cbn [JoinMode.onKeypresses].
  - by intros ?%elem_of_nil.
  - destruct (JoinMode.onKeypress ui key) as [ui1 cmds1] eqn:Hkey.
    specialize (IH ui1).
    destruct (JoinMode.onKeypresses ui1 keys) as [ui2 cmds2].
    cbn [snd] in *.
    apply onKeypress_cases in Hkey as [Hsel Hkey].
    intros [Hin | Hin]%elem_of_app.
    + destruct Hkey as [[-> Hcmds] | (cmd & paused & Hcmd & -> & -> & _)].
      * destruct Hcmds as [-> | [-> | [-> | [-> [Hk Hs]]]]].
        -- by apply elem_of_nil in Hin.
        -- by apply list_elem_of_singleton in Hin.
        -- apply list_elem_of_singleton in Hin as [= -> ->]. done.
        -- apply list_elem_of_singleton in Hin as [= -> ->]. split; [done |].
           intros _. split; [done |]. exists key. split; [left | done].
      * apply elem_of_cons in Hin as [<- | Hin]; [done |].
        destruct (_ =? 0); [by apply list_elem_of_singleton in Hin |
                            by apply elem_of_nil in Hin].
    + destruct (IH Hin) as [-> Hclose]. split; [done |].
      intros Hcb. destruct (Hclose Hcb) as [Hs (k & Hk & Hplain)].
      split; [congruence |]. exists k. split; [by right | done].
Qed.

End Keyboard.

(** *** The HTTP tab switch *)

Section TabSwitch.
Import Monitor JoinMode.

Lemma getAllTabs_lookup (allPages : list Page) (n : nat) :
  getAllTabs (Some allPages) !! n
  = (λ pg, (Z.of_nat n + 1, url pg)) <$> userTabs allPages !! n.
Proof. unfold getAllTabs. apply list_lookup_imap. Qed.

Lemma getAllTabs_length (allPages : list Page) :
  length (getAllTabs (Some allPages)) = length (userTabs allPages).
Proof. unfold getAllTabs. apply length_imap. Qed.

Lemma switchToTab_in_range (allPages : list Page) (n : nat) (pg : Page) :
  userTabs allPages !! n = Some pg →
  switchToTab (Some allPages) (Z.of_nat n + 1) = SwitchSuccess pg.
Proof.
  intros Hpg. unfold switchToTab.
  pose proof (lookup_lt_Some _ _ _ Hpg) as Hlt.
  destruct (Z.ltb_spec (Z.of_nat n + 1) 1); [lia |].
  destruct (Z.ltb_spec (Z.of_nat (length (userTabs allPages))) (Z.of_nat n + 1)); [lia |].
  cbn [orb]. replace (Z.to_nat (Z.of_nat n + 1 - 1)) with n by lia. by rewrite Hpg.
Qed.

(** X10. The HTTP tab switch follows the HTTP tab listing: every entry of
    the listing can be switched to by its index, which selects the page
    with the listed URL; a switch succeeds only for an index of the
    listing; any other index is refused with the range in the message, and
    so is every index while no browser is connected. *)
Theorem switchToTab_follows_getAllTabs (allPages : list Page) :
  let tabs := getAllTabs (Some allPages) in
  (∀ index u, (index, u) ∈ tabs →
     ∃ pg, switchToTab (Some allPages) index = SwitchSuccess pg
           ∧ url pg = u ∧ pg ∈ userTabs allPages)
  ∧ (∀ index pg, switchToTab (Some allPages) index = SwitchSuccess pg →
       1 ≤ index ∧ index ≤ Z.of_nat (length tabs)
       ∧ tabs !! Z.to_nat (index - 1) = Some (index, url pg))
  ∧ (∀ index, index < 1 ∨ Z.of_nat (length tabs) < index →
       switchToTab (Some allPages) index
       = SwitchError ("Invalid index. Use 1-" +:+ Js.ofZ (Z.of_nat (length tabs)) +:+ "."))
  ∧ (∀ index, switchToTab None index = SwitchError "Browser not connected").
Proof.
  intros tabs. subst tabs. split_and!.
  - intros index u [n Hn]%list_elem_of_lookup_1.
    rewrite getAllTabs_lookup in Hn.
    destruct (userTabs allPages !! n) as [pg|] eqn:Hpg; [| done].
    injection Hn as <- <-. exists pg. split_and!; [| done |].
    + by apply switchToTab_in_range.
    + by eapply list_elem_of_lookup_2.
  - intros index pg. unfold switchToTab. rewrite getAllTabs_length.
    destruct (Z.ltb_spec index 1); [done |].
    destruct (Z.ltb_spec (Z.of_nat (length (userTabs allPages))) index); [done |].
    cbn [orb]. destruct (userTabs allPages !! Z.to_nat (index - 1)) as [pg'|] eqn:Hpg; [| done].
    intros [= <-]. split_and!; [lia | lia |].
    rewrite getAllTabs_lookup, Hpg. cbn. do 2 f_equal. lia.
  - intros index Hout. unfold switchToTab. rewrite getAllTabs_length in *.
    destruct (Z.ltb_spec index 1); [done |].
    destruct (Z.ltb_spec (Z.of_nat (length (userTabs allPages))) index); [done | lia].
  - done.
Qed.

End TabSwitch.

(** *** The command line *)

Section ParseIntOfZ.






End ParseIntOfZ.

Section CommandLine.
Import Cli.






End CommandLine.

(** ** The further properties at concrete inputs *)

(** The browser process and one of its renderers announce port 9222: one
    instance, with the profile of the first line. *)
Lemma scanChromeInstances_first_line_wins_witness :
  let env := Chrome.mkScanEnv (Some "4242")
    (Some "CommandLine=chrome.exe --remote-debugging-port=9222 --user-data-dir=C:\Users\me\AppData\Local\browsermonitor\shop_1a2b
CommandLine=chrome.exe --type=renderer --remote-debugging-port=9222
") in
  filter (λ i, Chrome.port i = 9222) (Chrome.instances (Chrome.scanChromeInstances env))
  = [Chrome.mkInstance 9222 "C:\Users\me\AppData\Local\browsermonitor\shop_1a2b" "127.0.0.1"].
Proof.
  intros env.
  apply (scanChromeInstances_first_line_wins env
    "CommandLine=chrome.exe --remote-debugging-port=9222 --user-data-dir=C:\Users\me\AppData\Local\browsermonitor\shop_1a2b
CommandLine=chrome.exe --type=renderer --remote-debugging-port=9222
"
    []
    "CommandLine=chrome.exe --remote-debugging-port=9222 --user-data-dir=C:\Users\me\AppData\Local\browsermonitor\shop_1a2b"
    ["CommandLine=chrome.exe --type=renderer --remote-debugging-port=9222"] 9222).
  - vm_compute. reflexivity.
  - reflexivity.
  - vm_compute. reflexivity.
  - intros l Hl. by apply elem_of_nil in Hl.
  - vm_compute. reflexivity.
Defined.

(** Off WSL with one Chrome answering on 9223: the menu joins port 9223. *)
Lemma joinFromMenu_port_was_found_witness :
  let env := InteractiveMode.mkInstancesEnv false (Chrome.mkScanEnv None None)
    (λ port, if port =? 9223 then Some (Some "Chrome/120.0.0.0") else None) in
  ∃ env', env' ∈ [env] ∧ 9223 ∈ InteractiveMode.port <$> InteractiveMode.getChromeInstances env'.
Proof.
  intros env.
  apply (joinFromMenu_port_was_found [env] None None 9223).
  vm_compute. reflexivity.
Defined.

(** Two instances on offer and a plain [q]: the process ends. *)
Lemma prompt_quit_key_exits_witness :
  let items :=
    [InteractiveMode.mkItem 9222 "9222 – shop"; InteractiveMode.mkItem 9223 "9223 – blog"] in
  InteractiveMode.joinFromMenu [[]; items] (Some "q")
    (Some (InteractiveMode.mkKey (Some "q") false false false))
  = InteractiveMode.ProcessExited.
Proof.
  intros items.
  apply (prompt_quit_key_exits [[]; items] items (Some "q")
           (InteractiveMode.mkKey (Some "q") false false false)).
  - reflexivity.
  - unfold items. simpl. lia.
  - right. split_and!; reflexivity.
Defined.

(** Five dumps from a fresh session: one reminder. *)
Lemma help_reminder_every_fifth_command_witness :
  let d := Monitor.mkKeypress (Some "d") false false false in
  let cmds := (JoinMode.onKeypresses (Monitor.mkUi false 0 false) [d; d; d; d; d]).2 in
  countCommands isReadyHelp cmds = countCommands isCounted cmds / 5
  ∧ (OpenMode.onKeypresses (Monitor.mkUi false 0 false) [d; d; d; d; d]).2 = cmds.
Proof.
  intros d.
  apply (help_reminder_every_fifth_command (Monitor.mkUi false 0 false) [d; d; d; d; d]).
  reflexivity.
Defined.

